(** * Treescope's IPython integration: a shallow embedding

    This development models [treescope/_internal/api/ipython_integration.py]:
    the formatter-dispatch policy [_render_for_ipython], its installation by
    [register_as_default], the cell magics [%%autovisualize] and [%%with], and
    the host-availability guards of the public entry points.

    Python code is embedded as functions in a state-and-exception monad.  An
    exception leaves the state it was raised in, as in Python.  Everything the
    module calls but does not define (the rendering engine, the lowering
    pipeline, IPython, user code) is an [Environment]: a function that answers
    each call, together with a log of the calls made. *)

From Stdlib Require Import String Ascii List Bool Arith Lia.
From Stdlib Require Import Permutation.
From ExtLib Require Import Structures.Monad.
Import ListNotations.
Import MonadNotation.
Local Open Scope string_scope.
Local Open Scope list_scope.
Local Open Scope monad_scope.

Set Implicit Arguments.

(** ** Python values *)

(** Function and class objects that this module itself creates. *)
Inductive Code : Type :=
| lambda_value_path_None
    (* line 321: [lambda value, path: None] *)
| closure_render_for_ipython (streaming compress_html : bool)
    (* line 144: [_render_for_ipython], closed over the registration options *)
| closure_render_as_text_oneline
    (* line 212 *)
| class_AutovisualizerMagic
    (* line 265 *)
| class_ContextManagerMagic.
    (* line 326 *)

Inductive PyObj : Type :=
| PyNone
| PyBool (b : bool)
| PyStr (s : string)
| PyLocal (c : Code)      (* an object created by this module *)
| PyRef (id : nat).       (* any other object, known by its identity *)

(** [x is None]. *)
Definition is_None (x : PyObj) : bool :=
  match x with PyNone => true | _ => false end.

(** Truth value of an object in a boolean context.  An object known only by
    identity has the default truth value of Python objects. *)
Definition truthy (x : PyObj) : bool :=
  match x with
  | PyNone => false
  | PyBool b => b
  | PyStr s => negb (s =? "")
  | PyLocal _ => true
  | PyRef _ => true
  end.

(** Truth value of the result of the capability probe, a bound method or
    [None]. *)
Definition found (m : option PyObj) : bool :=
  match m with Some _ => true | None => false end.

(** ** Exceptions *)

(** Exceptions raised inside collaborators, classified as far as the [except]
    clauses of this module look at them. *)
Inductive ForeignExn : Type :=
| ForeignKeyError
| ForeignImportError
| ForeignOther (tag : nat).

Inductive PyExn : Type :=
| RuntimeError (msg : string)      (* the [raise] statements of this module *)
| AssertionError                   (* a failed [assert] of this module *)
| KeyError (key : string)          (* a failed dict subscript in this module *)
| AttributeError (attr : string)   (* attribute access on [None] in this module *)
| TypeError                        (* a bad call or a bad [raise] in this module *)
| InvariantViolation               (* a scope guard released out of order (spec 4.1) *)
| Foreign (e : ForeignExn).        (* raised inside a collaborator *)

Definition is_KeyError (e : PyExn) : bool :=
  match e with
  | KeyError _ => true
  | Foreign ForeignKeyError => true
  | _ => false
  end.

Definition is_ImportError (e : PyExn) : bool :=
  match e with
  | Foreign ForeignImportError => true
  | _ => false
  end.

(** ** Scoped context values *)

(** Modelled from the spec: [treescope.context.ContextualValue] is not part of
    the source at hand.  Section 3 of the specification gives its data: a
    permanent value and an ordered stack of temporary overrides, the current
    value being the top of the stack, or the permanent value if the stack is
    empty.  The head of [overrides] is the top of the stack. *)
Record ContextualValue : Type := {
  permanent : PyObj;
  overrides : list PyObj
}.

(** Modelled from the spec: [get() -> T] returns the current value and never
    fails (section 4.1). *)
Definition get (cv : ContextualValue) : PyObj :=
  match overrides cv with
  | v :: _ => v
  | [] => permanent cv
  end.

(** Modelled from the spec: [setGlobally(v)] replaces the permanent value and
    does not affect any active temporary override (section 4.1). *)
Definition set_globally (v : PyObj) (cv : ContextualValue) : ContextualValue :=
  {| permanent := v; overrides := overrides cv |}.

(** The state that code outside this module may read and change: the two
    context values this module uses, and the rest of the process. *)
Record Store : Type := {
  active_autovisualizer : ContextualValue;         (* autovisualize.active_autovisualizer *)
  default_magic_autovisualizer : ContextualValue;  (* line 253 *)
  elsewhere : nat                                  (* everything else, opaque *)
}.

Definition with_active_autovisualizer (cv : ContextualValue) (s : Store) : Store :=
  {| active_autovisualizer := cv;
     default_magic_autovisualizer := default_magic_autovisualizer s;
     elsewhere := elsewhere s |}.

(** ** Strings and dictionaries *)

(** A Python [str] is held as the bytes of its UTF-8 encoding.  Its
    whitespace characters, for [str.isspace] and [str.strip], are the code
    points U+0009 to U+000D, U+001C to U+0020, U+0085, U+00A0, U+1680,
    U+2000 to U+200A, U+2028, U+2029, U+202F, U+205F and U+3000. *)

(** The whitespace characters of one byte: tab to carriage return, the four
    separators, and space. *)
Definition is_space (c : ascii) : bool :=
  let n := nat_of_ascii c in
  ((9 <=? n)%nat && (n <=? 13)%nat) || ((28 <=? n)%nat && (n <=? 32)%nat).

(** The whitespace characters of two bytes: U+0085 (C2 85) and U+00A0
    (C2 A0). *)
Definition is_space2 (c1 c2 : ascii) : bool :=
  (nat_of_ascii c1 =? 194)%nat
  && ((nat_of_ascii c2 =? 133)%nat || (nat_of_ascii c2 =? 160)%nat).

(** The whitespace characters of three bytes: U+1680 (E1 9A 80), U+2000 to
    U+200A (E2 80 80 to E2 80 8A), U+2028, U+2029 and U+202F (E2 80 A8,
    E2 80 A9, E2 80 AF), U+205F (E2 81 9F) and U+3000 (E3 80 80). *)
Definition is_space3 (c1 c2 c3 : ascii) : bool :=
  let n1 := nat_of_ascii c1 in
  let n2 := nat_of_ascii c2 in
  let n3 := nat_of_ascii c3 in
  ((n1 =? 225)%nat && (n2 =? 154)%nat && (n3 =? 128)%nat)
  || ((n1 =? 226)%nat && (n2 =? 128)%nat
      && (((128 <=? n3)%nat && (n3 <=? 138)%nat)
          || (n3 =? 168)%nat || (n3 =? 169)%nat || (n3 =? 175)%nat))
  || ((n1 =? 226)%nat && (n2 =? 129)%nat && (n3 =? 159)%nat)
  || ((n1 =? 227)%nat && (n2 =? 128)%nat && (n3 =? 128)%nat).

(** The string cut into pieces, each marked as whitespace or not.  A
    whitespace character is one piece.  Of any other character each byte is a
    piece of its own: the bytes after the first are continuation bytes (80 to
    BF), and no whitespace character starts with one. *)
Fixpoint characters (s : string) : list (bool * string) :=
  match s with
  | EmptyString => []
  | String c1 s1 =>
    if is_space c1 then (true, String c1 EmptyString) :: characters s1
    else
      match s1 with
      | EmptyString => [(false, String c1 EmptyString)]
      | String c2 s2 =>
        if is_space2 c1 c2 then
          (true, String c1 (String c2 EmptyString)) :: characters s2
        else
          match s2 with
          | EmptyString => (false, String c1 EmptyString) :: characters s1
          | String c3 s3 =>
            if is_space3 c1 c2 c3 then
              (true, String c1 (String c2 (String c3 EmptyString))) :: characters s3
            else (false, String c1 EmptyString) :: characters s1
          end
      end
  end.

(** The pieces from the first that is not whitespace. *)
Fixpoint drop_spaces (pieces : list (bool * string)) : list (bool * string) :=
  match pieces with
  | (true, _) :: pieces' => drop_spaces pieces'
  | _ => pieces
  end.

(** The pieces put together again. *)
Fixpoint text_of (pieces : list (bool * string)) : string :=
  match pieces with
  | [] => EmptyString
  | (_, piece) :: pieces' => String.append piece (text_of pieces')
  end.

(** [s.strip()]: the whitespace characters at both ends are dropped. *)
Definition strip (s : string) : string :=
  text_of (rev (drop_spaces (rev (drop_spaces (characters s))))).

(** ** Calls to collaborators *)

Inductive Call : Type :=
| Invoke (f : PyObj) (args : list PyObj)
    (* a call of the callable [f] on the positional arguments [args] *)
| Enter (cm : PyObj)
    (* [cm.__enter__()] *)
| Exit (cm : PyObj) (exc : option PyExn)
    (* [cm.__exit__(...)] with the exception in flight, if any *)
| CollectingDeferredRenderings
    (* [lowering.collecting_deferred_renderings()] *)
| BuildFoldableRepresentation (value : PyObj) (ignore_exceptions : bool)
    (* [default_renderer.build_foldable_representation] *)
| BuildFullLineWithAnnotations (ir : PyObj)
    (* [rendering_parts.build_full_line_with_annotations] *)
| DisplayStreamingAsRoot (ir deferreds : PyObj) (roundtrip compressed stealable : bool)
    (* [lowering.display_streaming_as_root] *)
| RenderToHtmlAsRoot (ir : PyObj) (roundtrip compressed : bool)
    (* [lowering.render_to_html_as_root] *)
| RenderToHtml (value : PyObj) (ignore_exceptions roundtrip_mode compressed : bool)
    (* [default_renderer.render_to_html] *)
| FiguresInline (args : list PyObj) (wrap : bool)
    (* [figures.inline] *)
| NewArrayAutovisualizer
    (* [array_autovisualizer.ArrayAutovisualizer()] *)
| DisplayHTML (data : PyObj)
    (* [IPython.display.HTML] *)
| Display (obj : PyObj)
    (* [IPython.display.display] *)
| ForType (formatter : PyObj) (typ : string) (func : PyObj)
    (* [formatter.for_type] *)
| ForTypeByName (formatter : PyObj) (type_module type_name : string) (func : PyObj)
    (* [formatter.for_type_by_name] *)
| RegisterMagics (cls : PyObj)
    (* [shell.register_magics] *)
| ShellEv (line : string)
    (* [shell.ev] *)
| ShellRunCell (cell : string)
    (* [shell.run_cell] *)
| ImportColabReprs
    (* [from google.colab import _reprs] *)
| DisableStringRepr
| DisableNdarrayRepr
| DisableFunctionRepr.

Inductive Reply : Type :=
| Returns (x : PyObj)
| Raises (e : ForeignExn).

(** Insertion-ordered dictionary with string keys, as Python's [dict]. *)
Definition Dict : Type := list (string * PyObj).

(** [d[k]], [None] standing for [KeyError]. *)
Fixpoint dict_getitem (k : string) (d : Dict) : option PyObj :=
  match d with
  | [] => None
  | (k', v) :: d' => if k' =? k then Some v else dict_getitem k d'
  end.

(** [d[k] = v]: a present key keeps its position, a new key goes last. *)
Fixpoint dict_setitem (k : string) (v : PyObj) (d : Dict) : Dict :=
  match d with
  | [] => [(k, v)]
  | (k', v') :: d' =>
    if k' =? k then (k', v) :: d' else (k', v') :: dict_setitem k v d'
  end.

(** The invariant of a dictionary: no key occurs twice. *)
Definition dict_wf (d : Dict) : Prop := NoDup (map fst d).

(** What the module sees of its surroundings.  [respond] answers a call in a
    store and may change the store.  [safely_get_real_method] is the capability
    probe of [treescope._internal.object_inspection]: pure, total, [None] when
    the value has no genuine method of that name. *)
Class Environment : Type := {
  IPython_imported : bool;                       (* lines 30-37 *)
  respond : Call -> Store -> Reply * Store;
  safely_get_real_method : PyObj -> string -> option PyObj;
  isinstance_DisplayObject : PyObj -> bool
}.

(** ** The monad *)

Inductive Outcome (A : Type) : Type :=
| Returned (a : A)
| Raised (e : PyExn).
Arguments Returned {A} a.
Arguments Raised {A} e.

Definition Run (S A : Type) : Type := S -> Outcome A * S.

#[export] Instance Monad_Run (S : Type) : Monad (Run S) := {
  ret := fun A (a : A) s => (Returned a, s);
  bind := fun A B (m : Run S A) (k : A -> Run S B) s =>
    match m s with
    | (Returned a, s') => k a s'
    | (Raised e, s') => (Raised e, s')
    end
}.

Definition raise {S A : Type} (e : PyExn) : Run S A :=
  fun s => (Raised e, s).

(** [try: body / except <cls>: pass]. *)
Definition try_except_pass {S : Type} (catches : PyExn -> bool) (body : Run S unit)
  : Run S unit :=
  fun s =>
    match body s with
    | (Returned tt, s') => (Returned tt, s')
    | (Raised e, s') => if catches e then (Returned tt, s') else (Raised e, s')
    end.

(** [assert cond]. *)
Definition assert_ {S : Type} (cond : bool) : Run S unit :=
  if cond then ret tt else raise AssertionError.

(** The interpreter state: the log of collaborator calls, oldest first, each
    with the store it was made in; the store; and the host's formatter
    registry [display_formatter.formatters], absent when [get_ipython()]
    returns [None]. *)
Record World : Type := {
  calls : list (Call * Store);
  store : Store;
  formatters : option Dict   (* [None]: no running shell *)
}.

Definition M (A : Type) : Type := Run World A.

Section Model.

Context {E : Environment}.

(** A call to a collaborator: logged, then answered by the environment. *)
Definition external (c : Call) : M PyObj :=
  fun w =>
    let '(r, s') := respond c (store w) in
    let w' := {| calls := calls w ++ [(c, store w)];
                 store := s';
                 formatters := formatters w |} in
    match r with
    | Returns x => (Returned x, w')
    | Raises e => (Raised (Foreign e), w')
    end.

Definition read_store : M Store := fun w => (Returned (store w), w).

Definition write_store (s : Store) : M unit :=
  fun w => (Returned tt, {| calls := calls w; store := s; formatters := formatters w |}).

(** ** Context managers *)

(** A context manager: [__enter__] yields the value bound by [as] and the
    manager's private state, which [__exit__] receives back together with the
    exception in flight. *)
Record ContextManager : Type := {
  cm_state : Type;
  cm_enter : M (PyObj * cm_state);
  cm_exit : cm_state -> option PyExn -> M PyObj
}.

(** An object of the environment used as a context manager.  An object without
    the protocol is one whose [Enter] call raises. *)
Definition object_cm (o : PyObj) : ContextManager := {|
  cm_state := unit;
  cm_enter := x <- external (Enter o) ;; ret (x, tt);
  cm_exit := fun _ exc => external (Exit o exc)
|}.

(** [with cm as x: body], followed by [rest] when the statement completes
    without a [return].  [body] yields [Some r] for [return r] and [None] when
    it runs off its end. *)
Definition with_stmt {A : Type} (cm : ContextManager)
  (body : PyObj -> M (option A)) (rest : M A) : M A :=
  fun w =>
    match cm_enter cm w with
    | (Raised e, w1) => (Raised e, w1)
    | (Returned (x, st), w1) =>
      match body x w1 with
      | (Returned r, w2) =>
        match cm_exit cm st None w2 with
        | (Raised e', w3) => (Raised e', w3)
        | (Returned _, w3) =>
          match r with
          | Some a => (Returned a, w3)
          | None => rest w3
          end
        end
      | (Raised e, w2) =>
        match cm_exit cm st (Some e) w2 with
        | (Raised e', w3) => (Raised e', w3)
        | (Returned suppress, w3) =>
          if truthy suppress then rest w3 else (Raised e, w3)
        end
      end
    end.

(** *** [contextlib.ExitStack] *)

(** [_exit_callbacks]: the managers entered through the stack, latest first. *)
Definition ExitStack : Type := list PyObj.

Definition lift {A : Type} (m : M A) : Run (ExitStack * World) A :=
  fun '(stack, w) => let '(r, w') := m w in (r, (stack, w')).

(** [stack.enter_context(cm)]: the exit is registered only when [__enter__]
    returned. *)
Definition enter_context (cm : PyObj) : Run (ExitStack * World) PyObj :=
  fun '(stack, w) =>
    match external (Enter cm) w with
    | (Returned x, w') => (Returned x, (cm :: stack, w'))
    | (Raised e, w') => (Raised e, (stack, w'))
    end.

(** The loop of [ExitStack.__exit__]: callbacks run latest first; one that
    returns a true value swallows the exception in flight, one that raises
    replaces it.  Yields [(exc_details, suppressed_exc, pending_raise)]. *)
Fixpoint unwind (stack : ExitStack) (exc : option PyExn)
  (suppressed_exc pending_raise : bool) (w : World)
  : (option PyExn * bool * bool) * World :=
  match stack with
  | [] => ((exc, suppressed_exc, pending_raise), w)
  | cm :: stack' =>
    match external (Exit cm exc) w with
    | (Returned r, w') =>
      if truthy r then unwind stack' None true false w'
      else unwind stack' exc suppressed_exc pending_raise w'
    | (Raised e, w') => unwind stack' (Some e) suppressed_exc true w'
    end
  end.

(** [with contextlib.ExitStack() as stack: body], followed by [rest]. *)
Definition with_ExitStack {A : Type}
  (body : Run (ExitStack * World) (option A)) (rest : M A) : M A :=
  fun w =>
    let '(r, (stack, w1)) := body ([], w) in
    let received_exc := match r with Raised e => Some e | Returned _ => None end in
    let '((exc, suppressed_exc, pending_raise), w2) :=
      unwind stack received_exc false false w1 in
    if pending_raise then
      match exc with
      | Some e => (Raised e, w2)
      | None => (Raised TypeError, w2)   (* [raise None]; never reached *)
      end
    else
      match r with
      | Returned (Some a) => (Returned a, w2)
      | Returned None => rest w2
      | Raised e => if suppressed_exc then rest w2 else (Raised e, w2)
      end.

(** ** [_render_for_ipython] (lines 144-206) *)

Section RegisterAsDefault.

Variables streaming compress_html : bool.

Definition _render_for_ipython (value : PyObj) : M PyObj :=
  let repr_html_method := safely_get_real_method value "_repr_html_" in
  match repr_html_method with
  | Some m => external (Invoke m [])
  | None =>
    if isinstance_DisplayObject value
       || (found (safely_get_real_method value "_repr_pretty_")
           && negb (found (safely_get_real_method value "__treescope_repr__")
                    || found (safely_get_real_method value "__treescope_root_repr__")))
    then
      (* Don't render this to HTML. *)
      ret PyNone
    else
      with_ExitStack
        (deferreds <-
           (if streaming then
              cm <- lift (external CollectingDeferredRenderings) ;;
              enter_context cm
            else ret PyNone) ;;
         let root_repr_method :=
           safely_get_real_method value "__treescope_root_repr__" in
         foldable_ir <-
           match root_repr_method with
           | Some m => lift (external (Invoke m []))
           | None =>
             ir <- lift (external (BuildFoldableRepresentation value true)) ;;
             lift (external (BuildFullLineWithAnnotations ir))
           end ;;
         if streaming then
           output_stealer <-
             lift (external (DisplayStreamingAsRoot foldable_ir deferreds
                               false compress_html true)) ;;
           ret (Some output_stealer)
         else
           assert_ (is_None deferreds) ;;
           html <- lift (external (RenderToHtmlAsRoot foldable_ir false compress_html)) ;;
           ret (Some html))
        (ret PyNone)
  end.

(** ** [register_as_default] (lines 97-250) *)

(** [IPython.get_ipython().<attr>]: a shell must be running. *)
Definition get_ipython (attr : string) : M unit :=
  fun w =>
    match formatters w with
    | Some _ => (Returned tt, w)
    | None => (Raised (AttributeError attr), w)
    end.

(** Reading [display_formatter.formatters]. *)
Definition read_formatters : M Dict :=
  fun w =>
    match formatters w with
    | Some d => (Returned d, w)
    | None => (Raised (AttributeError "formatters"), w)
    end.

(** [display_formatter.formatters = d]. *)
Definition write_formatters (d : Dict) : M unit :=
  fun w => (Returned tt, {| calls := calls w; store := store w; formatters := Some d |}).

(** [display_formatter.formatters[k]]. *)
Definition formatters_getitem (k : string) : M PyObj :=
  d <- read_formatters ;;
  match dict_getitem k d with
  | Some v => ret v
  | None => raise (KeyError k)
  end.

(** [display_formatter.formatters[k] = v]. *)
Definition formatters_setitem (k : string) (v : PyObj) : M unit :=
  d <- read_formatters ;;
  write_formatters (dict_setitem k v d).

(** [for x in xs: body]. *)
Fixpoint for_each {A : Type} (xs : list A) (body : A -> M unit) : M unit :=
  match xs with
  | [] => ret tt
  | x :: xs' => body x ;; for_each xs' body
  end.

Definition register_as_default : M unit :=
  if negb IPython_imported then
    raise (RuntimeError "Cannot use `register_as_default` outside of IPython.")
  else
    get_ipython "display_formatter" ;;
    cur_html_formatter <- formatters_getitem "text/html" ;;
    _ <- external (ForType cur_html_formatter "object"
                     (PyLocal (closure_render_for_ipython streaming compress_html))) ;;
    cur_text_formatter <- formatters_getitem "text/plain" ;;
    _ <- external (ForTypeByName cur_text_formatter "jaxlib.xla_extension" "ArrayImpl"
                     (PyLocal closure_render_as_text_oneline)) ;;
    (* Make sure the HTML formatter runs first. *)
    old_formatters <- read_formatters ;;
    write_formatters [] ;;
    formatters_setitem "text/html" cur_html_formatter ;;
    for_each old_formatters
      (fun '(k, v) =>
         if negb (k =? "text/html") then formatters_setitem k v else ret tt) ;;
    try_except_pass is_ImportError
      (_ <- external ImportColabReprs ;;
       _ <- external DisableStringRepr ;;
       try_except_pass is_KeyError (_ <- external DisableNdarrayRepr ;; ret tt) ;;
       try_except_pass is_KeyError (_ <- external DisableFunctionRepr ;; ret tt)).

End RegisterAsDefault.

(** ** [display] (lines 40-69) and [show] (lines 72-94) *)

Definition display (value : PyObj) (ignore_exceptions roundtrip_mode : bool) : M unit :=
  if negb IPython_imported then
    raise (RuntimeError "Cannot use `display` outside of IPython.")
  else
    html <- external (RenderToHtml value ignore_exceptions roundtrip_mode true) ;;
    obj <- external (DisplayHTML html) ;;
    _ <- external (Display obj) ;;
    ret tt.

Definition show (args : list PyObj) (wrap space_separated : bool) : M unit :=
  if negb IPython_imported then
    raise (RuntimeError "Cannot use `show` outside of IPython.")
  else
    let args :=
      if space_separated && negb (match args with [] => true | _ => false end) then
        let separated_args :=
          fold_left (fun acc arg => (acc ++ [arg]) ++ [PyStr " "]) args [] in
        removelast separated_args
      else args in
    fig <- external (FiguresInline args wrap) ;;
    _ <- external (Display fig) ;;
    ret tt.

(** ** The cell magics (lines 262-356) *)

(** Line 321: a call of [lambda value, path: None]. *)
Definition call_lambda_value_path_None (args : list PyObj) : Outcome PyObj :=
  match args with
  | [value; path] => Returned PyNone
  | _ => Raised TypeError
  end.

(** Modelled from the spec: [ContextualValue.set_scoped] is not part of the
    source at hand.  Section 4.1: [setScoped(v)] pushes [v] and returns a guard
    that, on release, pops exactly the entry it pushed, however control leaves
    the scope; a guard released out of order fails loudly with an
    [InvariantViolation].  The guard remembers the height of the stack below its
    entry, and does not swallow the exception in flight.  It is given here for
    [autovisualize.active_autovisualizer], the one context value this module
    scopes. *)
Definition set_scoped_active_autovisualizer (v : PyObj) : ContextManager := {|
  cm_state := nat;
  cm_enter :=
    s <- read_store ;;
    let cv := active_autovisualizer s in
    write_store (with_active_autovisualizer
                   {| permanent := permanent cv; overrides := v :: overrides cv |} s) ;;
    ret (PyNone, length (overrides cv));
  cm_exit := fun height _ =>
    s <- read_store ;;
    let cv := active_autovisualizer s in
    match overrides cv with
    | _ :: below =>
      if (length below =? height)%nat then
        write_store (with_active_autovisualizer
                       {| permanent := permanent cv; overrides := below |} s) ;;
        ret PyNone
      else raise InvariantViolation
    | [] => raise InvariantViolation
    end
|}.

(** [AutovisualizerMagic.autovisualize] (lines 269-323). *)
Definition autovisualize (line cell : string) : M unit :=
  autovisualizer <-
    (if truthy (PyStr (strip line)) then
       (* Evaluate the line as Python code. *)
       external (ShellEv line)
     else
       (* Retrieve the default autovisualizer. *)
       s <- read_store ;;
       ret (get (default_magic_autovisualizer s))) ;;
  let autovisualizer :=
    if is_None autovisualizer then PyLocal lambda_value_path_None
    else autovisualizer in
  with_stmt (set_scoped_active_autovisualizer autovisualizer)
    (fun _ => _ <- external (ShellRunCell cell) ;; ret None)
    (ret tt).

(** [ContextManagerMagic.with_] (lines 330-356). *)
Definition with_ (line cell : string) : M unit :=
  ctxmgr <- external (ShellEv line) ;;
  with_stmt (object_cm ctxmgr)
    (fun _ => _ <- external (ShellRunCell cell) ;; ret None)
    (ret tt).

(** ** Registration of the magics (lines 363-392) *)

Definition register_autovisualize_magic : M unit :=
  if negb IPython_imported then
    raise (RuntimeError "Cannot use `register_autovisualize_magic` outside of IPython.")
  else
    get_ipython "register_magics" ;;
    _ <- external (RegisterMagics (PyLocal class_AutovisualizerMagic)) ;;
    ret tt.

Definition register_context_manager_magic : M unit :=
  if negb IPython_imported then
    raise (RuntimeError "Cannot use `register_context_manager_magic` outside of IPython.")
  else
    get_ipython "register_magics" ;;
    _ <- external (RegisterMagics (PyLocal class_ContextManagerMagic)) ;;
    ret tt.

(** ** [basic_interactive_setup] (lines 395-417) *)

Definition basic_interactive_setup (autovisualize_arrays : bool) : M unit :=
  register_as_default true true ;;
  register_autovisualize_magic ;;
  register_context_manager_magic ;;
  if autovisualize_arrays then
    visualizer <- external NewArrayAutovisualizer ;;
    s <- read_store ;;
    write_store (with_active_autovisualizer
                   (set_globally visualizer (active_autovisualizer s)) s)
  else ret tt.

End Model.

(** * Vocabulary of the statements *)

Section Vocabulary.

Context {E : Environment}.

(** The calls to the custom rendering engine and its lowering pipeline. *)
Definition is_engine_call (c : Call) : bool :=
  match c with
  | CollectingDeferredRenderings
  | BuildFoldableRepresentation _ _
  | BuildFullLineWithAnnotations _
  | DisplayStreamingAsRoot _ _ _ _ _
  | RenderToHtmlAsRoot _ _ _
  | RenderToHtml _ _ _ _ => true
  | _ => false
  end.

(** The suppression rule in the words of the specification (4.3, step 2): an
    opaque display object, or a value with a native pretty/text capability and
    neither a custom root representation nor a custom per-node one. *)
Definition suppresses_custom_rendering (value : PyObj) : bool :=
  isinstance_DisplayObject value
  || (found (safely_get_real_method value "_repr_pretty_")
      && (negb (found (safely_get_real_method value "__treescope_root_repr__"))
          && negb (found (safely_get_real_method value "__treescope_repr__")))).

(** [c] occurs in a stretch of the log. *)
Definition called (log : list (Call * Store)) (c : Call) : Prop :=
  In c (map fst log).

(** [c] occurs in a stretch of the log and the collaborator returned [x]. *)
Definition answered (log : list (Call * Store)) (c : Call) (x : PyObj) : Prop :=
  exists s, In (c, s) log /\ fst (respond c s) = Returns x.

(** In streaming mode, the collection of deferred renderings can be opened:
    the two calls of line 169 return. *)
Definition deferred_collection_ready (streaming : bool) (s : Store) : bool :=
  negb streaming
  || match respond CollectingDeferredRenderings s with
     | (Returns cm, s0) =>
       match fst (respond (Enter cm) s0) with
       | Returns _ => true
       | Raises _ => false
       end
     | (Raises _, _) => false
     end.

(** The representation a lowering call is given. *)
Definition lowered_ir (c : Call) : option PyObj :=
  match c with
  | DisplayStreamingAsRoot ir _ _ _ _ => Some ir
  | RenderToHtmlAsRoot ir _ _ => Some ir
  | _ => None
  end.

(** What a call may be when streaming is on: the streaming lowering with
    [roundtrip=False], the registered compression and [stealable=True], and
    never the one-shot lowering. *)
Definition streaming_call_ok (compress_html : bool) (c : Call) : Prop :=
  match c with
  | DisplayStreamingAsRoot _ _ roundtrip compressed stealable =>
    roundtrip = false /\ compressed = compress_html /\ stealable = true
  | RenderToHtmlAsRoot _ _ _ => False
  | _ => True
  end.

(** What a call may be when streaming is off: the one-shot lowering with
    [roundtrip=False] and the registered compression; no streaming lowering and
    no context manager at all. *)
Definition one_shot_call_ok (compress_html : bool) (c : Call) : Prop :=
  match c with
  | RenderToHtmlAsRoot _ roundtrip compressed =>
    roundtrip = false /\ compressed = compress_html
  | DisplayStreamingAsRoot _ _ _ _ _ => False
  | CollectingDeferredRenderings => False
  | Enter _ => False
  | Exit _ _ => False
  | _ => True
  end.

(** The entries of the registry other than [text/html]. *)
Definition not_html (kv : string * PyObj) : bool :=
  negb (fst kv =? "text/html").

(** The body of the loop of lines 233-235. *)
Definition reorder_body : string * PyObj -> M unit :=
  fun '(k, v) => if negb (k =? "text/html") then formatters_setitem k v else ret tt.

(** Code behind a call that leaves [active_autovisualizer] as it found it:
    its own scopes are closed and it sets no permanent value. *)
Definition leaves_active_autovisualizer (c : Call) : Prop :=
  forall s, active_autovisualizer (snd (respond c s)) = active_autovisualizer s.

(** The store with [v] pushed on [active_autovisualizer]. *)
Definition pushed (v : PyObj) (s : Store) : Store :=
  with_active_autovisualizer
    {| permanent := permanent (active_autovisualizer s);
       overrides := v :: overrides (active_autovisualizer s) |} s.

(** The call with which custom rendering sets out (lines 165-185): the
    request for a collection of deferred renderings when streaming, else the
    value's own root representation or, failing that, the engine. *)
Definition first_custom_call (streaming : bool) (value : PyObj) : Call :=
  if streaming then CollectingDeferredRenderings
  else
    match safely_get_real_method value "__treescope_root_repr__" with
    | Some m => Invoke m []
    | None => BuildFoldableRepresentation value true
    end.

(** Every call of a stretch of the log returned. *)
Definition all_returned (log : list (Call * Store)) : Prop :=
  forall c s, In (c, s) log -> exists x, fst (respond c s) = Returns x.

(** Lines 320-321: the visualizer installed for [x]. *)
Definition visualizer_for (x : PyObj) : PyObj :=
  if is_None x then PyLocal lambda_value_path_None else x.

End Vocabulary.

(** * Sample environments *)

(** A collaborator that answers every call with the same object and leaves the
    store alone. *)
Definition respond_quietly : Call -> Store -> Reply * Store :=
  fun _ s => (Returns (PyRef 42), s).

(** A shell in which the expression on the magic line evaluates to [None] and
    the cell body raises. *)
Definition respond_failing_cell : Call -> Store -> Reply * Store :=
  fun c s =>
    match c with
    | ShellEv _ => (Returns PyNone, s)
    | ShellRunCell _ => (Raises (ForeignOther 1), s)
    | _ => (Returns (PyRef 42), s)
    end.

(** A shell in which the expression on the magic line fails to evaluate. *)
Definition respond_failing_line : Call -> Store -> Reply * Store :=
  fun c s =>
    match c with
    | ShellEv _ => (Raises (ForeignOther 2), s)
    | _ => (Returns (PyRef 42), s)
    end.

(** Values whose genuine methods are exactly those named in [names]. *)
Definition methods_named (names : list string) : PyObj -> string -> option PyObj :=
  fun _ name => if existsb (String.eqb name) names then Some (PyRef 7) else None.

Definition sample_store : Store := {|
  active_autovisualizer := {| permanent := PyRef 2; overrides := [PyRef 5] |};
  default_magic_autovisualizer := {| permanent := PyRef 3; overrides := [] |};
  elsewhere := 0
|}.

Definition sample_formatters : Dict :=
  [("text/plain", PyRef 10); ("text/html", PyRef 11); ("image/png", PyRef 12)].

Definition sample_world : World := {|
  calls := [];
  store := sample_store;
  formatters := Some sample_formatters
|}.

Definition sample_env (imported : bool) (respond : Call -> Store -> Reply * Store)
  (names : list string) : Environment := {|
  IPython_imported := imported;
  respond := respond;
  safely_get_real_method := methods_named names;
  isinstance_DisplayObject := fun _ => false
|}.

(** No IPython: the import at line 31 failed. *)
Definition env_without_IPython : Environment :=
  sample_env false respond_quietly [].

(** A value with both [_repr_html_] and [__treescope_repr__]. *)
Definition env_html_value : Environment :=
  sample_env true respond_quietly ["_repr_html_"; "__treescope_repr__"].

(** A value with [_repr_pretty_] and nothing else. *)
Definition env_pretty_value : Environment :=
  sample_env true respond_quietly ["_repr_pretty_"].

(** A value with [_repr_pretty_] and [__treescope_root_repr__]. *)
Definition env_root_repr_value : Environment :=
  sample_env true respond_quietly ["_repr_pretty_"; "__treescope_root_repr__"].

(** A value with no capability at all. *)
Definition env_plain_value : Environment :=
  sample_env true respond_quietly [].

Definition env_failing_cell : Environment :=
  sample_env true respond_failing_cell [].

Definition env_failing_line : Environment :=
  sample_env true respond_failing_line [].

(** A lowering that raises inside a collection scope whose [__exit__] swallows
    exceptions. *)
Definition respond_swallowing : Call -> Store -> Reply * Store :=
  fun c s =>
    match c with
    | DisplayStreamingAsRoot _ _ _ _ _ => (Raises (ForeignOther 3), s)
    | Exit _ (Some _) => (Returns (PyBool true), s)
    | _ => (Returns (PyRef 42), s)
    end.

Definition env_swallowing : Environment :=
  sample_env true respond_swallowing [].

(** * The text printer [_render_as_text_oneline] (lines 212-219) *)

(** The printer is handed to IPython's plain-text formatter and talks to
    collaborators of its own: the expansion strategy and the text renderer of
    [default_renderer], and IPython's pretty printer [p]. *)
Inductive TextCall : Type :=
| UsingExpansionStrategy (max_height : option nat)
    (* [default_renderer.using_expansion_strategy(max_height=...)] *)
| EnterStrategy (cm : PyObj)
    (* [cm.__enter__()] *)
| ExitStrategy (cm : PyObj) (raised : option ForeignExn)
    (* [cm.__exit__(...)] with the exception in flight, if any *)
| RenderToText (value : PyObj) (ignore_exceptions : bool)
    (* [default_renderer.render_to_text] *)
| PrinterBreak (p : PyObj)
    (* [p.break_()] *)
| PrinterText (p : PyObj) (line : string).
    (* [p.text(line)] *)

Inductive TextExn : Type :=
| UnboundLocalError (name : string)   (* a local read before it was assigned *)
| NoAttribute (attr : string)         (* [AttributeError] on the rendering *)
| TextForeign (e : ForeignExn).       (* raised inside a collaborator *)

Inductive TextOutcome (A : Type) : Type :=
| TextReturned (a : A)
| TextRaised (e : TextExn).
Arguments TextReturned {A} a.
Arguments TextRaised {A} e.

(** The state of the printer: its log of calls, oldest first, and the store. *)
Record TextWorld : Type := {
  text_calls : list (TextCall * Store);
  text_store : Store
}.

Definition TextM (A : Type) : Type := TextWorld -> TextOutcome A * TextWorld.

#[export] Instance Monad_TextM : Monad TextM := {
  ret := fun A (a : A) w => (TextReturned a, w);
  bind := fun A B (m : TextM A) (k : A -> TextM B) w =>
    match m w with
    | (TextReturned a, w') => k a w'
    | (TextRaised e, w') => (TextRaised e, w')
    end
}.

Definition text_raise {A : Type} (e : TextExn) : TextM A :=
  fun w => (TextRaised e, w).

Class TextCollaborators : Type := {
  respond_text : TextCall -> Store -> Reply * Store
}.

(** [s.split(sep)] for the one-character separator [sep]: one more piece than
    there are separators, the empty string giving one empty piece. *)
Fixpoint split_at (sep : ascii) (s : string) : list string :=
  match s with
  | EmptyString => [EmptyString]
  | String c s' =>
    if Ascii.eqb c sep then EmptyString :: split_at sep s'
    else
      match split_at sep s' with
      | piece :: pieces => String c piece :: pieces
      | [] => [String c EmptyString]
      end
  end.

Definition newline : ascii := ascii_of_nat 10.

(** [enumerate(xs)]. *)
Definition enumerate {A : Type} (xs : list A) : list (nat * A) :=
  combine (seq 0 (length xs)) xs.

Section TextPrinter.

Context {T : TextCollaborators}.

Definition text_external (c : TextCall) : TextM PyObj :=
  fun w =>
    let '(r, s') := respond_text c (text_store w) in
    let w' := {| text_calls := text_calls w ++ [(c, text_store w)];
                 text_store := s' |} in
    match r with
    | Returns x => (TextReturned x, w')
    | Raises e => (TextRaised (TextForeign e), w')
    end.

(** [with cm: x = body], yielding [Some x] when the assignment took place and
    [None] when the body raised and [__exit__] swallowed the exception, which
    leaves the local unbound. *)
Definition with_assigning (cm : PyObj) (body : TextM PyObj) : TextM (option PyObj) :=
  fun w =>
    match text_external (EnterStrategy cm) w with
    | (TextRaised e, w1) => (TextRaised e, w1)
    | (TextReturned _, w1) =>
      match body w1 with
      | (TextReturned x, w2) =>
        match text_external (ExitStrategy cm None) w2 with
        | (TextRaised e', w3) => (TextRaised e', w3)
        | (TextReturned _, w3) => (TextReturned (Some x), w3)
        end
      | (TextRaised (TextForeign e), w2) =>
        match text_external (ExitStrategy cm (Some e)) w2 with
        | (TextRaised e', w3) => (TextRaised e', w3)
        | (TextReturned suppress, w3) =>
          if truthy suppress then (TextReturned None, w3)
          else (TextRaised (TextForeign e), w3)
        end
      | (TextRaised e, w2) => (TextRaised e, w2)
      end
    end.

(** [for x in xs: body]. *)
Fixpoint text_for_each {A : Type} (xs : list A) (body : A -> TextM unit) : TextM unit :=
  match xs with
  | [] => ret tt
  | x :: xs' => body x ;; text_for_each xs' body
  end.

(** The body of the loop of lines 216-219. *)
Definition print_line (p : PyObj) : nat * string -> TextM unit :=
  fun '(i, line) =>
    (if negb (i =? 0)%nat then _ <- text_external (PrinterBreak p) ;; ret tt
     else ret tt) ;;
    _ <- text_external (PrinterText p line) ;;
    ret tt.

Definition _render_as_text_oneline (value p cycle : PyObj) : TextM unit :=
  (* del cycle *)
  cm <- text_external (UsingExpansionStrategy None) ;;
  rendering <- with_assigning cm (text_external (RenderToText value true)) ;;
  match rendering with
  | None => text_raise (UnboundLocalError "rendering")
  | Some (PyStr s) => text_for_each (enumerate (split_at newline s)) (print_line p)
  | Some _ => text_raise (NoAttribute "split")
  end.

End TextPrinter.

(** [sep.join(pieces)] for the one-character separator [sep]. *)
Fixpoint join_with (sep : ascii) (pieces : list string) : string :=
  match pieces with
  | [] => EmptyString
  | [piece] => piece
  | piece :: pieces' => String.append piece (String sep (join_with sep pieces'))
  end.

(** The number of occurrences of [c] in [s]. *)
Fixpoint count_char (c : ascii) (s : string) : nat :=
  match s with
  | EmptyString => 0
  | String c' s' => (if Ascii.eqb c' c then 1 else 0) + count_char c s'
  end.

Definition is_printer_call (c : TextCall) : bool :=
  match c with
  | PrinterBreak _ => true
  | PrinterText _ _ => true
  | _ => false
  end.

(** What the pretty printer is to be told for these lines: the first line,
    then a break and a line for each line after it. *)
Definition printer_script (p : PyObj) (lines : list string) : list TextCall :=
  match lines with
  | [] => []
  | line :: lines' =>
    PrinterText p line
    :: flat_map (fun line' => [PrinterBreak p; PrinterText p line']) lines'
  end.

(** The lines handed to [p.text], in order. *)
Fixpoint printed_lines (log : list TextCall) : list string :=
  match log with
  | [] => []
  | PrinterText _ line :: log' => line :: printed_lines log'
  | _ :: log' => printed_lines log'
  end.

(** A renderer that yields three lines, the middle one empty. *)
Definition respond_three_lines : TextCall -> Store -> Reply * Store :=
  fun c s =>
    match c with
    | RenderToText _ _ =>
      (Returns (PyStr (String.append "Array("
                         (String newline (String newline "  shape=(2,))")))), s)
    | _ => (Returns PyNone, s)
    end.

(** A renderer that raises under a strategy scope that swallows exceptions. *)
Definition respond_swallowing_text : TextCall -> Store -> Reply * Store :=
  fun c s =>
    match c with
    | RenderToText _ _ => (Raises (ForeignOther 6), s)
    | ExitStrategy _ (Some _) => (Returns (PyBool true), s)
    | _ => (Returns PyNone, s)
    end.

Definition printer_three_lines : TextCollaborators :=
  {| respond_text := respond_three_lines |}.

Definition printer_swallowing : TextCollaborators :=
  {| respond_text := respond_swallowing_text |}.

Definition sample_text_world : TextWorld :=
  {| text_calls := []; text_store := sample_store |}.

(** * Vocabulary of the further statements *)

(** [xs] with [sep] between any two neighbours. *)
Fixpoint intersperse (sep : PyObj) (xs : list PyObj) : list PyObj :=
  match xs with
  | [] => []
  | [x] => [x]
  | x :: xs' => x :: sep :: intersperse sep xs'
  end.

Section RegistrationVocabulary.

Context {E : Environment}.

(** Lines 237-250: the Colab tweaks at the end of [register_as_default]. *)
Definition colab_tweaks : M unit :=
  try_except_pass is_ImportError
    (_ <- external ImportColabReprs ;;
     _ <- external DisableStringRepr ;;
     try_except_pass is_KeyError (_ <- external DisableNdarrayRepr ;; ret tt) ;;
     try_except_pass is_KeyError (_ <- external DisableFunctionRepr ;; ret tt)).

(** The two registrations of lines 210 and 224. *)
Definition html_registration (streaming compress_html : bool) (html : PyObj) : Call :=
  ForType html "object" (PyLocal (closure_render_for_ipython streaming compress_html)).

Definition text_registration (text : PyObj) : Call :=
  ForTypeByName text "jaxlib.xla_extension" "ArrayImpl"
    (PyLocal closure_render_as_text_oneline).

(** Lines 139-226 go through: IPython is there, a shell is running, its
    registry holds both formatters, and both registrations return. *)
Definition printers_registered (streaming compress_html : bool) (w : World) : bool :=
  IPython_imported
  && match formatters w with
     | None => false
     | Some d =>
       match dict_getitem "text/html" d, dict_getitem "text/plain" d with
       | Some html, Some text =>
         match respond (html_registration streaming compress_html html) (store w) with
         | (Returns _, s1) =>
           match fst (respond (text_registration text) s1) with
           | Returns _ => true
           | Raises _ => false
           end
         | (Raises _, _) => false
         end
       | _, _ => false
       end
     end.

(** A collaborator's answer that the [except KeyError] of lines 243 and 247
    lets through: a return, or a [KeyError]. *)
Definition tolerated (r : Reply) : bool :=
  match r with
  | Returns _ => true
  | Raises ForeignKeyError => true
  | Raises _ => false
  end.

Definition is_registration (c : Call) : bool :=
  match c with
  | ForType _ _ _ => true
  | ForTypeByName _ _ _ _ => true
  | _ => false
  end.

End RegistrationVocabulary.

(** Outside Colab: the import of line 238 fails. *)
Definition respond_outside_colab : Call -> Store -> Reply * Store :=
  fun c s =>
    match c with
    | ImportColabReprs => (Raises ForeignImportError, s)
    | _ => (Returns (PyRef 42), s)
    end.

(** In Colab, with no custom [ndarray] repr installed. *)
Definition respond_colab_no_ndarray_repr : Call -> Store -> Reply * Store :=
  fun c s =>
    match c with
    | DisableNdarrayRepr => (Raises ForeignKeyError, s)
    | _ => (Returns (PyRef 42), s)
    end.

(** In Colab, with no custom string repr installed. *)
Definition respond_colab_no_string_repr : Call -> Store -> Reply * Store :=
  fun c s =>
    match c with
    | DisableStringRepr => (Raises ForeignKeyError, s)
    | _ => (Returns (PyRef 42), s)
    end.

Definition env_outside_colab : Environment :=
  sample_env true respond_outside_colab [].

Definition env_colab_no_ndarray_repr : Environment :=
  sample_env true respond_colab_no_ndarray_repr [].

Definition env_colab_no_string_repr : Environment :=
  sample_env true respond_colab_no_string_repr [].

Definition world_without_shell : World := {|
  calls := [];
  store := sample_store;
  formatters := None
|}.

Definition world_without_html : World := {|
  calls := [];
  store := sample_store;
  formatters := Some [("text/plain", PyRef 10)]
|}.

Definition world_without_plain : World := {|
  calls := [];
  store := sample_store;
  formatters := Some [("image/png", PyRef 12); ("text/html", PyRef 11)]
|}.

Definition is_enter_call (c : Call) : bool :=
  match c with Enter _ => true | _ => false end.

Definition is_exit_call (c : Call) : bool :=
  match c with Exit _ _ => true | _ => false end.

(** The string consists of whitespace characters only. *)
Definition all_space (s : string) : bool :=
  forallb fst (characters s).

(** What a call came to: the value returned, or the exception raised. *)
Definition outcome_of (r : Reply) : Outcome PyObj :=
  match r with
  | Returns x => Returned x
  | Raises e => Raised (Foreign e)
  end.

(** A context manager whose [__enter__] fails. *)
Definition respond_failing_enter : Call -> Store -> Reply * Store :=
  fun c s =>
    match c with
    | Enter _ => (Raises (ForeignOther 4), s)
    | _ => (Returns (PyRef 42), s)
    end.

(** An engine that fails to build the representation. *)
Definition respond_failing_engine : Call -> Store -> Reply * Store :=
  fun c s =>
    match c with
    | BuildFoldableRepresentation _ _ => (Raises (ForeignOther 5), s)
    | _ => (Returns (PyRef 42), s)
    end.

Definition env_failing_enter : Environment :=
  sample_env true respond_failing_enter [].

Definition env_failing_engine : Environment :=
  sample_env true respond_failing_engine [].

(** The calls [basic_interactive_setup] may make. *)
Definition setup_call_ok (autovisualize_arrays : bool) (c : Call) : Prop :=
  match c with
  | ForType _ typ func =>
    typ = "object" /\ func = PyLocal (closure_render_for_ipython true true)
  | ForTypeByName _ type_module type_name func =>
    type_module = "jaxlib.xla_extension" /\ type_name = "ArrayImpl"
    /\ func = PyLocal closure_render_as_text_oneline
  | RegisterMagics cls =>
    cls = PyLocal class_AutovisualizerMagic \/ cls = PyLocal class_ContextManagerMagic
  | ImportColabReprs => True
  | DisableStringRepr => True
  | DisableNdarrayRepr => True
  | DisableFunctionRepr => True
  | NewArrayAutovisualizer => autovisualize_arrays = true
  | _ => False
  end.

(** Whatever [m] does, the calls it adds to the log all satisfy [ok]. *)
Definition only_calls {A : Type} (ok : Call -> Prop) (m : M A) : Prop :=
  forall w, exists new,
    calls (snd (m w)) = calls w ++ new
    /\ Forall (fun entry => ok (fst entry)) new.

(** * Properties *)

#[local] Arguments String.eqb : simpl never.

(** ** Running the model symbolically *)

Ltac unfold_model :=
  repeat (progress (cbn -[In]; unfold external, enter_context, lift)).

(** One step: split on the next answer of the environment, or on the truth
    value of what an [__exit__] returned. *)
Ltac step_env :=
  unfold_model;
  match goal with
  | |- context [respond ?c ?s] =>
    let x := fresh "x" in
    let e := fresh "e" in
    let s' := fresh "s" in
    let H := fresh "Hr" in
    destruct (respond c s) as [[x | e] s'] eqn:H; cbn -[In]
  | |- context [truthy ?r] =>
    let H := fresh "Ht" in
    destruct (truthy r) eqn:H; cbn -[In]
  end.

(** The log of the final world as the initial log followed by new entries. *)
Ltac close_log :=
  eexists; split;
  [ rewrite <- ?app_assoc; cbn [app]; try reflexivity;
    rewrite ?app_nil_r; reflexivity
  | ].

Ltac find_in := (left; reflexivity) || (right; find_in).

Ltac rewrite_respond :=
  match goal with
  | H : respond ?c ?s = _ |- context [respond ?c ?s] => rewrite H
  end.

Ltac rewrite_respond_in Ha :=
  match type of Ha with
  | context [respond ?c ?s] =>
    match goal with
    | H : respond c s = _ |- _ => rewrite H in Ha
    end
  end.

(** [answered log c x] from an entry of a concrete log. *)
Ltac solve_answered :=
  unfold answered; eexists; split; [cbn; find_in | rewrite_respond; reflexivity].

(** All the ways [H : answered log c x] can hold in a concrete log. *)
Ltac use_answered H :=
  let s := fresh "s" in
  let Hin := fresh "Hin" in
  let Ha := fresh "Ha" in
  destruct H as (s & Hin & Ha); cbn in Hin;
  repeat (destruct Hin as [Hin | Hin];
          [ try discriminate Hin; inversion Hin; subst;
            try rewrite_respond_in Ha; cbn in Ha;
            try discriminate Ha; inversion Ha; subst
          | ]);
  try contradiction.

(** A call that raised, against the assumption that every call returned. *)
Ltac refute_raise Hall :=
  match goal with
  | Hr : respond ?c ?s = (Raises _, _) |- _ =>
    exfalso;
    let x := fresh "x" in
    let Hx := fresh "Hx" in
    destruct (Hall c s) as [x Hx];
    [ cbn; find_in | rewrite Hr in Hx; discriminate Hx ]
  end.

(** ** Sanity checks of the model on concrete inputs *)

Example strip_spaces :
  strip (String.append "  my autovisualizer " (String (ascii_of_nat 9) EmptyString))
  = "my autovisualizer".
Proof. reflexivity. Qed.

Example strip_blank : strip "   " = "".
Proof. reflexivity. Qed.

(** A line of one no-break space (U+00A0), of one ideographic space (U+3000),
    and an em dash (U+2014, which shares two bytes with U+2003) between an en
    quad (U+2000) and a line separator (U+2028). *)
Example strip_no_break_space :
  strip (String (ascii_of_nat 194) (String (ascii_of_nat 160) EmptyString)) = "".
Proof. reflexivity. Qed.

Example strip_ideographic_space :
  strip (String (ascii_of_nat 227) (String (ascii_of_nat 128)
           (String (ascii_of_nat 128) EmptyString))) = "".
Proof. reflexivity. Qed.

Example strip_keeps_em_dash :
  strip (String (ascii_of_nat 226) (String (ascii_of_nat 128) (String (ascii_of_nat 128)
          (String (ascii_of_nat 226) (String (ascii_of_nat 128) (String (ascii_of_nat 148)
          (String (ascii_of_nat 226) (String (ascii_of_nat 128) (String (ascii_of_nat 168)
           EmptyString)))))))))
  = String (ascii_of_nat 226) (String (ascii_of_nat 128) (String (ascii_of_nat 148)
      EmptyString)).
Proof. reflexivity. Qed.

Example strip_keeps_inner_space : strip "  a  b  " = "a  b".
Proof. reflexivity. Qed.

Example dict_setitem_present :
  dict_setitem "text/html" (PyRef 1) sample_formatters
  = [("text/plain", PyRef 10); ("text/html", PyRef 1); ("image/png", PyRef 12)].
Proof. reflexivity. Qed.

Example dict_setitem_absent :
  dict_setitem "text/latex" (PyRef 1) sample_formatters
  = sample_formatters ++ [("text/latex", PyRef 1)].
Proof. reflexivity. Qed.

Example show_separates_arguments :
  calls (snd (@show env_plain_value [PyStr "a"; PyRef 1; PyStr "b"] false true sample_world))
  = [(FiguresInline [PyStr "a"; PyStr " "; PyRef 1; PyStr " "; PyStr "b"] false,
      sample_store);
     (Display (PyRef 42), sample_store)].
Proof. reflexivity. Qed.

Example streaming_render_of_plain_value :
  @_render_for_ipython env_plain_value true true (PyRef 0) sample_world
  = (Returned (PyRef 42),
     {| calls := [(CollectingDeferredRenderings, sample_store);
                  (Enter (PyRef 42), sample_store);
                  (BuildFoldableRepresentation (PyRef 0) true, sample_store);
                  (BuildFullLineWithAnnotations (PyRef 42), sample_store);
                  (DisplayStreamingAsRoot (PyRef 42) (PyRef 42) false true true,
                   sample_store);
                  (Exit (PyRef 42) None, sample_store)];
        store := sample_store;
        formatters := Some sample_formatters |}).
Proof. reflexivity. Qed.

Example one_shot_render_of_plain_value :
  @_render_for_ipython env_plain_value false false (PyRef 0) sample_world
  = (Returned (PyRef 42),
     {| calls := [(BuildFoldableRepresentation (PyRef 0) true, sample_store);
                  (BuildFullLineWithAnnotations (PyRef 42), sample_store);
                  (RenderToHtmlAsRoot (PyRef 42) false false, sample_store)];
        store := sample_store;
        formatters := Some sample_formatters |}).
Proof. reflexivity. Qed.

(** The one way the custom path returns [None]: the scope's [__exit__]
    swallowed an exception, and the function ran off its end. *)
Example swallowed_exception_returns_None :
  fst (@_render_for_ipython env_swallowing true true (PyRef 0) sample_world)
  = Returned PyNone
  /\ map fst (calls (snd (@_render_for_ipython env_swallowing true true (PyRef 0)
                            sample_world)))
     = [CollectingDeferredRenderings;
        Enter (PyRef 42);
        BuildFoldableRepresentation (PyRef 0) true;
        BuildFullLineWithAnnotations (PyRef 42);
        DisplayStreamingAsRoot (PyRef 42) (PyRef 42) false true true;
        Exit (PyRef 42) (Some (Foreign (ForeignOther 3)))].
Proof. split; reflexivity. Qed.

Example autovisualize_blank_line_uses_default :
  map (fun entry => (fst entry, get (active_autovisualizer (snd entry))))
      (calls (snd (@autovisualize env_plain_value "  " "x" sample_world)))
  = [(ShellRunCell "x", PyRef 3)]
  /\ get (active_autovisualizer
            (store (snd (@autovisualize env_plain_value "  " "x" sample_world))))
     = PyRef 5.
Proof. split; reflexivity. Qed.

Example register_reorders_sample :
  formatters (snd (@register_as_default env_plain_value true true sample_world))
  = Some [("text/html", PyRef 11); ("text/plain", PyRef 10); ("image/png", PyRef 12)].
Proof. reflexivity. Qed.

(** ** The dispatch policy *)

Section DispatchPolicy.

Context {E : Environment}.

Lemma external_eq (c : Call) (w : World) :
  external c w =
  (match fst (respond c (store w)) with
   | Returns x => Returned x
   | Raises e => Raised (Foreign e)
   end,
   {| calls := calls w ++ [(c, store w)];
      store := snd (respond c (store w));
      formatters := formatters w |}).
Proof.
  unfold external. destruct (respond c (store w)) as [[x | e] s']; reflexivity.
Qed.

(** The test of lines 150-160 is the rule of the specification. *)
Lemma code_condition (value : PyObj) :
  isinstance_DisplayObject value
  || found (safely_get_real_method value "_repr_pretty_")
     && negb (found (safely_get_real_method value "__treescope_repr__")
              || found (safely_get_real_method value "__treescope_root_repr__"))
  = suppresses_custom_rendering value.
Proof.
  unfold suppresses_custom_rendering.
  destruct (isinstance_DisplayObject value),
    (found (safely_get_real_method value "_repr_pretty_")),
    (found (safely_get_real_method value "__treescope_repr__")),
    (found (safely_get_real_method value "__treescope_root_repr__"));
    reflexivity.
Qed.

(** [ExitStack.__exit__] raises only an exception it holds: the [raise None] of
    [with_ExitStack] is never reached. *)
Lemma unwind_pending (stack : ExitStack) :
  forall exc suppressed_exc pending_raise w,
    (pending_raise = true -> exc <> None) ->
    snd (fst (unwind stack exc suppressed_exc pending_raise w)) = true ->
    fst (fst (fst (unwind stack exc suppressed_exc pending_raise w))) <> None.
Proof.
  induction stack as [| cm stack IH]; intros exc sup pend w Hinv; cbn.
  - exact Hinv.
  - destruct (external (Exit cm exc) w) as [[r | e] w'].
    + destruct (truthy r); apply IH; [discriminate | exact Hinv].
    + apply IH. discriminate.
Qed.

(** C1. A value with a genuine [_repr_html_] is left to that method: the
    policy is exactly one call of the method with no arguments, its outcome is
    the policy's outcome, and the log gains that call and nothing else, so no
    call to the rendering engine.  The other capabilities of the value play no
    part. *)
Theorem C1_native_html_defers (streaming compress_html : bool)
  (value m : PyObj) (w : World) :
  safely_get_real_method value "_repr_html_" = Some m ->
  _render_for_ipython streaming compress_html value w = external (Invoke m []) w
  /\ calls (snd (_render_for_ipython streaming compress_html value w))
     = calls w ++ [(Invoke m [], store w)]
  /\ forall c s,
       In (c, s) (calls (snd (_render_for_ipython streaming compress_html value w))) ->
       is_engine_call c = true -> In (c, s) (calls w).
Proof.
  intros Hm. unfold _render_for_ipython. rewrite Hm.
  rewrite external_eq. cbn [snd calls].
  repeat split.
  intros c s Hin Hc. apply in_app_or in Hin. destruct Hin as [Hin | [Heq | []]].
  - exact Hin.
  - inversion Heq; subst. discriminate Hc.
Qed.

(** C2. For a value without a genuine [_repr_html_], the policy returns [None]
    having called nothing exactly when the value is a display object, or has a
    genuine [_repr_pretty_] and neither [__treescope_root_repr__] nor
    [__treescope_repr__].  For every other such value it sets out to render:
    its first act is a call, the request for a collection of deferred
    renderings when streaming, else the call of the value's own root
    representation or of the engine. *)
Theorem C2_suppression_rule (streaming compress_html : bool)
  (value : PyObj) (w : World) :
  safely_get_real_method value "_repr_html_" = None ->
  (_render_for_ipython streaming compress_html value w = (Returned PyNone, w)
   <-> suppresses_custom_rendering value = true)
  /\ (suppresses_custom_rendering value = false ->
      exists rest,
        calls (snd (_render_for_ipython streaming compress_html value w))
        = calls w ++ (first_custom_call streaming value, store w) :: rest).
Proof.
  intros Hh. unfold _render_for_ipython, first_custom_call.
  rewrite Hh, code_condition.
  destruct (suppresses_custom_rendering value) eqn:Hc.
  - split; [split; reflexivity | discriminate].
  - assert (Hstarts :
      exists rest,
        calls (snd (with_ExitStack
          (deferreds <-
             (if streaming then
                cm <- lift (external CollectingDeferredRenderings) ;;
                enter_context cm
              else ret PyNone) ;;
           foldable_ir <-
             match safely_get_real_method value "__treescope_root_repr__" with
             | Some m => lift (external (Invoke m []))
             | None =>
               ir <- lift (external (BuildFoldableRepresentation value true)) ;;
               lift (external (BuildFullLineWithAnnotations ir))
             end ;;
           if streaming then
             output_stealer <-
               lift (external (DisplayStreamingAsRoot foldable_ir deferreds
                                 false compress_html true)) ;;
             ret (Some output_stealer)
           else
             assert_ (is_None deferreds) ;;
             html <- lift (external (RenderToHtmlAsRoot foldable_ir false
                                       compress_html)) ;;
             ret (Some html))
          (ret PyNone) w))
        = calls w
          ++ ((if streaming then CollectingDeferredRenderings
               else
                 match safely_get_real_method value "__treescope_root_repr__" with
                 | Some m => Invoke m []
                 | None => BuildFoldableRepresentation value true
                 end), store w) :: rest).
    { unfold with_ExitStack.
      destruct streaming,
        (safely_get_real_method value "__treescope_root_repr__") as [m |];
        cbn; repeat step_env.
      all: eexists; rewrite <- ?app_assoc; cbn [app]; reflexivity. }
    split; [| intros _; exact Hstarts].
    split; [| discriminate]. intros Hnone. exfalso.
    destruct Hstarts as [rest Hcalls]. rewrite Hnone in Hcalls. cbn in Hcalls.
    apply (f_equal (@length _)) in Hcalls. rewrite length_app in Hcalls.
    cbn in Hcalls. lia.
Qed.

(** C3. On the custom-rendering path, once the collection of deferred
    renderings is open (nothing to open when streaming is off): a value with a
    genuine [__treescope_root_repr__] has that method called with no arguments,
    the engine is not asked to build anything, and the representation handed to
    the lowering is what the method returned; for any other value the engine is
    asked to build the representation of that value with
    [ignore_exceptions=True], no method of the value is called, and the
    lowering is handed the engine's result wrapped by
    [build_full_line_with_annotations]. *)
Theorem C3_representation_source (streaming compress_html : bool)
  (value : PyObj) (w : World) :
  safely_get_real_method value "_repr_html_" = None ->
  suppresses_custom_rendering value = false ->
  deferred_collection_ready streaming (store w) = true ->
  exists new,
    calls (snd (_render_for_ipython streaming compress_html value w)) = calls w ++ new
    /\ match safely_get_real_method value "__treescope_root_repr__" with
       | Some m =>
         called new (Invoke m [])
         /\ (forall v b, ~ called new (BuildFoldableRepresentation v b))
         /\ (forall c ir, called new c -> lowered_ir c = Some ir ->
                          answered new (Invoke m []) ir)
       | None =>
         called new (BuildFoldableRepresentation value true)
         /\ (forall v b, called new (BuildFoldableRepresentation v b) ->
                         v = value /\ b = true)
         /\ (forall f args, ~ called new (Invoke f args))
         /\ (forall c ir, called new c -> lowered_ir c = Some ir ->
               exists x, answered new (BuildFoldableRepresentation value true) x
                         /\ answered new (BuildFullLineWithAnnotations x) ir)
       end.
Proof.
  intros Hh Hc Hready. unfold _render_for_ipython. rewrite Hh, code_condition, Hc.
  unfold with_ExitStack, deferred_collection_ready in *.
  destruct streaming,
    (safely_get_real_method value "__treescope_root_repr__") as [m |];
    cbn in Hready; cbn; repeat step_env; cbn in Hready; try discriminate Hready.
  all: close_log.
  all: repeat match goal with |- _ /\ _ => split end.
  all: try (unfold called; cbn; tauto).
  all: try (intros v b Hin; unfold called in Hin; cbn in Hin; intuition congruence).
  all: try (intros f args Hin; unfold called in Hin; cbn in Hin; intuition congruence).
  all: intros c ir Hin Hl; unfold called in Hin; cbn in Hin;
       repeat (destruct Hin as [Hin | Hin];
               [subst c; cbn in Hl; try discriminate Hl |]);
       try contradiction; inversion Hl; subst.
  all: try solve_answered.
  all: eexists; split; solve_answered.
Qed.

(** C4. On the custom-rendering path with streaming on, the only lowering
    called is [display_streaming_as_root], with [roundtrip=False], the
    registered compression and [stealable=True]; what it returns is what the
    policy returns, provided the collection scope closes without raising; and
    the policy returns nothing else, save [None] after an exception that the
    scope's [__exit__] swallowed.  With streaming off, the only lowering called
    is [render_to_html_as_root], with [roundtrip=False] and the registered
    compression, no context manager is involved, and the policy returns exactly
    what that call returns.  In both modes, when every call the policy makes
    returns, the lowering of that mode is among them and the policy returns its
    result: a handle when streaming, an HTML fragment otherwise. *)
Theorem C4_streaming_result (streaming compress_html : bool)
  (value : PyObj) (w : World) :
  safely_get_real_method value "_repr_html_" = None ->
  suppresses_custom_rendering value = false ->
  exists new,
    calls (snd (_render_for_ipython streaming compress_html value w)) = calls w ++ new
    /\ if streaming then
         (forall c, called new c -> streaming_call_ok compress_html c)
         /\ (forall ir d h cm y,
               answered new (DisplayStreamingAsRoot ir d false compress_html true) h ->
               answered new (Exit cm None) y ->
               fst (_render_for_ipython streaming compress_html value w) = Returned h)
         /\ (forall x,
               fst (_render_for_ipython streaming compress_html value w) = Returned x ->
               (exists ir d,
                  answered new (DisplayStreamingAsRoot ir d false compress_html true) x)
               \/ (x = PyNone
                   /\ exists cm e y,
                        answered new (Exit cm (Some e)) y /\ truthy y = true))
         /\ (all_returned new ->
             exists ir d h,
               answered new (DisplayStreamingAsRoot ir d false compress_html true) h
               /\ fst (_render_for_ipython streaming compress_html value w)
                  = Returned h)
       else
         (forall c, called new c -> one_shot_call_ok compress_html c)
         /\ (forall x,
               fst (_render_for_ipython streaming compress_html value w) = Returned x
               <-> exists ir, answered new (RenderToHtmlAsRoot ir false compress_html) x)
         /\ (all_returned new ->
             exists ir h,
               answered new (RenderToHtmlAsRoot ir false compress_html) h
               /\ fst (_render_for_ipython streaming compress_html value w)
                  = Returned h).
Proof.
  intros Hh Hc. unfold _render_for_ipython. rewrite Hh, code_condition, Hc.
  unfold with_ExitStack.
  destruct streaming,
    (safely_get_real_method value "__treescope_root_repr__") as [m |];
    cbn; repeat step_env.
  all: close_log.
  all: repeat match goal with |- _ /\ _ => split end.
  all: try (intros c Hin; unfold called in Hin; cbn in Hin;
            repeat (destruct Hin as [Hin | Hin]; [subst c; cbn; auto |]);
            contradiction).
  all: try (intros ir d h cm y H1 H2; use_answered H1; use_answered H2; reflexivity).
  all: try (intros r Hret; try discriminate Hret; inversion Hret; subst;
            first [ left; do 2 eexists; solve_answered
                  | right; split; [reflexivity |];
                    do 3 eexists; split; [solve_answered | assumption] ]).
  all: try (intros r; split;
            [ intros Hret; try discriminate Hret; inversion Hret; subst;
              eexists; solve_answered
            | intros [ir H]; use_answered H; reflexivity ]).
  all: intros Hall;
       first [ refute_raise Hall
             | do 3 eexists; split; [solve_answered | reflexivity]
             | do 2 eexists; split; [solve_answered | reflexivity] ].
Qed.

(** C10. With streaming off, [_render_for_ipython] never raises the
    [AssertionError] of line 201, whatever the value and the collaborators do:
    [deferreds] is [None] there, since the collection of deferred renderings is
    never requested and no context manager is entered. *)
Theorem C10_assertion_holds (compress_html : bool) (value : PyObj) (w : World) :
  fst (_render_for_ipython false compress_html value w) <> Raised AssertionError
  /\ forall c s,
       In (c, s) (calls (snd (_render_for_ipython false compress_html value w))) ->
       c = CollectingDeferredRenderings \/ (exists cm, c = Enter cm) ->
       In (c, s) (calls w).
Proof.
  unfold _render_for_ipython.
  destruct (safely_get_real_method value "_repr_html_") as [m |].
  - rewrite external_eq. cbn. split.
    + destruct (fst _); discriminate.
    + intros c s Hin Hc. apply in_app_or in Hin.
      destruct Hin as [Hin | [Hin | []]]; [exact Hin |].
      inversion Hin; subst. destruct Hc as [Hc | [cm Hc]]; discriminate Hc.
  - destruct (_ || _).
    + cbn. split; [discriminate | auto].
    + unfold with_ExitStack.
      destruct (safely_get_real_method value "__treescope_root_repr__") as [m |];
        cbn; repeat step_env.
      all: split; [discriminate |].
      all: intros c s' Hin Hc; rewrite <- ?app_assoc in Hin; apply in_app_or in Hin;
           destruct Hin as [Hin | Hin]; [exact Hin |]; cbn in Hin;
           repeat (destruct Hin as [Hin | Hin];
                   [ inversion Hin; subst;
                     destruct Hc as [Hc | [cm Hc]]; discriminate Hc
                   | ]);
           contradiction.
Qed.

End DispatchPolicy.

(** A value with [_repr_html_] and [__treescope_repr__]: one call of
    [_repr_html_], whose result is returned. *)
Lemma C1_native_html_defers_witness :
  @safely_get_real_method env_html_value (PyRef 0) "_repr_html_" = Some (PyRef 7)
  /\ @_render_for_ipython env_html_value true true (PyRef 0) sample_world
     = (Returned (PyRef 42),
        {| calls := [(Invoke (PyRef 7) [], sample_store)];
           store := sample_store;
           formatters := Some sample_formatters |}).
Proof.
  split; [reflexivity |].
  destruct (@C1_native_html_defers env_html_value true true (PyRef 0) (PyRef 7)
              sample_world eq_refl) as [H _].
  rewrite H. reflexivity.
Defined.

(** A value with [_repr_pretty_] only is suppressed. *)
Lemma C2_suppression_rule_witness :
  @safely_get_real_method env_pretty_value (PyRef 0) "_repr_html_" = None
  /\ @suppresses_custom_rendering env_pretty_value (PyRef 0) = true
  /\ @_render_for_ipython env_pretty_value true true (PyRef 0) sample_world
     = (Returned PyNone, sample_world).
Proof.
  split; [reflexivity |]. split; [reflexivity |].
  apply (proj2 (proj1 (@C2_suppression_rule env_pretty_value true true (PyRef 0)
                         sample_world eq_refl))).
  reflexivity.
Defined.

(** A value with [_repr_pretty_] and [__treescope_root_repr__], streaming on:
    the method is called and the engine is not. *)
Lemma C3_representation_source_witness :
  @safely_get_real_method env_root_repr_value (PyRef 0) "_repr_html_" = None
  /\ @suppresses_custom_rendering env_root_repr_value (PyRef 0) = false
  /\ @deferred_collection_ready env_root_repr_value true (store sample_world) = true
  /\ exists new,
       calls (snd (@_render_for_ipython env_root_repr_value true true (PyRef 0)
                     sample_world))
       = calls sample_world ++ new
       /\ called new (Invoke (PyRef 7) [])
       /\ forall v b, ~ called new (BuildFoldableRepresentation v b).
Proof.
  split; [reflexivity |]. split; [reflexivity |]. split; [reflexivity |].
  destruct (@C3_representation_source env_root_repr_value true true (PyRef 0)
              sample_world eq_refl eq_refl eq_refl) as (new & Hcalls & Hrest).
  assert (Hm : @safely_get_real_method env_root_repr_value (PyRef 0)
                 "__treescope_root_repr__" = Some (PyRef 7)) by reflexivity.
  rewrite Hm in Hrest. destruct Hrest as (Hcalled & Hnot & _).
  exists new. split; [exact Hcalls |]. split; [exact Hcalled | exact Hnot].
Defined.

(** A value with no capability, streaming off: only the one-shot lowering is
    called, and what it returns is returned. *)
Lemma C4_streaming_result_witness :
  @safely_get_real_method env_plain_value (PyRef 0) "_repr_html_" = None
  /\ @suppresses_custom_rendering env_plain_value (PyRef 0) = false
  /\ exists new,
       calls (snd (@_render_for_ipython env_plain_value false true (PyRef 0)
                     sample_world))
       = calls sample_world ++ new
       /\ (forall c, called new c -> one_shot_call_ok true c)
       /\ @all_returned env_plain_value new
       /\ exists ir h,
            @answered env_plain_value new (RenderToHtmlAsRoot ir false true) h
            /\ fst (@_render_for_ipython env_plain_value false true (PyRef 0)
                      sample_world)
               = Returned h.
Proof.
  split; [reflexivity |]. split; [reflexivity |].
  destruct (@C4_streaming_result env_plain_value false true (PyRef 0)
              sample_world eq_refl eq_refl) as (new & Hcalls & Hok & _ & Hlive).
  assert (Hall : @all_returned env_plain_value new)
    by (intros c s _; eexists; reflexivity).
  exists new. split; [exact Hcalls |]. split; [exact Hok |].
  split; [exact Hall | exact (Hlive Hall)].
Defined.

(** ** Registration *)

Section Registration.

Context {E : Environment}.

Lemma dict_setitem_fresh (k : string) (v : PyObj) (d : Dict) :
  ~ In k (map fst d) -> dict_setitem k v d = d ++ [(k, v)].
Proof.
  induction d as [| [k' v'] d IH]; cbn; intros Hnot.
  - reflexivity.
  - destruct (String.eqb_spec k' k) as [-> | Hne].
    + exfalso. apply Hnot. now left.
    + rewrite IH; [reflexivity |]. intros Hin. apply Hnot. now right.
Qed.

Lemma dict_getitem_filter (k : string) (d : Dict) :
  k <> "text/html" ->
  dict_getitem k (filter not_html d) = dict_getitem k d.
Proof.
  intros Hk. induction d as [| [k' v'] d IH]; cbn; [reflexivity |].
  unfold not_html at 1. cbn [fst].
  destruct (String.eqb_spec k' "text/html") as [-> | Hne]; cbn.
  - destruct (String.eqb_spec "text/html" k) as [Heq | _]; [congruence | exact IH].
  - rewrite IH. reflexivity.
Qed.

Lemma filter_idem (A : Type) (p : A -> bool) (l : list A) :
  filter p (filter p l) = filter p l.
Proof.
  induction l as [| a l IH]; cbn; [reflexivity |].
  destruct (p a) eqn:Hp; cbn; rewrite ?Hp, IH; reflexivity.
Qed.

(** The loop of lines 233-235, run on a registry [acc] that holds none of the
    keys it is about to add, appends the entries of [old] other than
    [text/html], in their order. *)
Lemma reorder_loop (old : Dict) :
  forall (acc : Dict) (log : list (Call * Store)) (s : Store),
    NoDup (map fst old) ->
    (forall k, In k (map fst old) -> k <> "text/html" -> ~ In k (map fst acc)) ->
    for_each old reorder_body {| calls := log; store := s; formatters := Some acc |}
    = (Returned tt,
       {| calls := log; store := s; formatters := Some (acc ++ filter not_html old) |}).
Proof.
  induction old as [| [k v] old IH]; intros acc log s Hnd Hfresh.
  - cbn. rewrite app_nil_r. reflexivity.
  - cbn [for_each]. inversion Hnd as [| ? ? Hk Hnd']; subst.
    cbn -[for_each filter]. cbn [filter]. unfold not_html at 1. cbn [fst].
    destruct (String.eqb_spec k "text/html") as [-> | Hne]; cbn -[for_each filter].
    + apply IH; [exact Hnd' |]. intros k' Hin. apply Hfresh. now right.
    + rewrite dict_setitem_fresh by (apply Hfresh; [now left | exact Hne]).
      rewrite IH; [now rewrite <- app_assoc | exact Hnd' |].
      intros k' Hin Hk' Hin'. rewrite map_app in Hin'. apply in_app_or in Hin'.
      destruct Hin' as [Hin' | [<- | []]].
      * revert Hin'. apply Hfresh; [now right | exact Hk'].
      * apply Hk. exact Hin.
Qed.

(** C5. In a running shell whose registry holds [text/html] and [text/plain],
    and once the two printers are registered, [register_as_default] leaves the
    registry with the [text/html] entry first, bound to the formatter object it
    had; every other key is bound to the object it had; and the other entries
    are the same as before, in the same order.  This holds whatever the Colab
    tweaks that follow do. *)
Theorem C5_html_formatter_first (streaming compress_html : bool) (w : World)
  (d : Dict) (html text x1 x2 : PyObj) (s1 s2 : Store) :
  IPython_imported = true ->
  formatters w = Some d ->
  dict_wf d ->
  dict_getitem "text/html" d = Some html ->
  dict_getitem "text/plain" d = Some text ->
  respond (ForType html "object"
             (PyLocal (closure_render_for_ipython streaming compress_html)))
          (store w) = (Returns x1, s1) ->
  respond (ForTypeByName text "jaxlib.xla_extension" "ArrayImpl"
             (PyLocal closure_render_as_text_oneline))
          s1 = (Returns x2, s2) ->
  exists d',
    formatters (snd (register_as_default streaming compress_html w)) = Some d'
    /\ d' = ("text/html", html) :: filter not_html d
    /\ hd_error d' = Some ("text/html", html)
    /\ (forall k, k <> "text/html" -> dict_getitem k d' = dict_getitem k d)
    /\ filter not_html d' = filter not_html d.
Proof.
  intros Himp Hd Hwf Hhtml Htext Hr1 Hr2.
  exists (("text/html", html) :: filter not_html d).
  split; [| split; [reflexivity | split; [reflexivity | split]]].
  - unfold register_as_default. rewrite Himp.
    destruct w as [log s fs]. cbn in Hd, Hr1. subst fs.
    cbn -[for_each]. unfold get_ipython. cbn -[for_each].
    rewrite Hhtml. cbn -[for_each]. unfold external at 1. cbn -[for_each].
    rewrite Hr1. cbn -[for_each]. rewrite Htext. cbn -[for_each].
    unfold external at 1. cbn -[for_each]. rewrite Hr2. cbn -[for_each].
    match goal with
    | |- context [for_each d ?f ?w0] =>
      change (for_each d f w0) with (for_each d reorder_body w0)
    end.
    rewrite reorder_loop; [| exact Hwf |].
    + unfold try_except_pass.
      repeat (unfold external; cbn;
              match goal with
              | |- context [respond ?c ?s] => destruct (respond c s) as [[? | []] ?]
              end); reflexivity.
    + intros k _ Hk [Heq | []]. apply Hk. symmetry. exact Heq.
  - intros k Hk. cbn [dict_getitem].
    destruct (String.eqb_spec "text/html" k) as [Heq | _]; [congruence |].
    apply dict_getitem_filter. exact Hk.
  - cbn [filter]. unfold not_html at 1. cbn [fst]. rewrite String.eqb_refl.
    cbn [negb]. apply filter_idem.
Qed.

(** C8. Without IPython, each of [display], [show], [register_as_default],
    [register_autovisualize_magic] and [register_context_manager_magic] raises
    its [RuntimeError] at once: the world is as it was, no collaborator has
    been called, whatever the arguments. *)
Theorem C8_host_unavailable :
  IPython_imported = false ->
  (forall value ignore_exceptions roundtrip_mode w,
     display value ignore_exceptions roundtrip_mode w
     = (Raised (RuntimeError "Cannot use `display` outside of IPython."), w))
  /\ (forall args wrap space_separated w,
        show args wrap space_separated w
        = (Raised (RuntimeError "Cannot use `show` outside of IPython."), w))
  /\ (forall streaming compress_html w,
        register_as_default streaming compress_html w
        = (Raised (RuntimeError
                     "Cannot use `register_as_default` outside of IPython."), w))
  /\ (forall w,
        register_autovisualize_magic w
        = (Raised (RuntimeError
                     "Cannot use `register_autovisualize_magic` outside of IPython."), w))
  /\ (forall w,
        register_context_manager_magic w
        = (Raised (RuntimeError
                     "Cannot use `register_context_manager_magic` outside of IPython."), w)).
Proof.
  intros Himp.
  unfold display, show, register_as_default, register_autovisualize_magic,
    register_context_manager_magic.
  rewrite Himp. cbn [negb]. repeat split.
Qed.

End Registration.

Lemma C5_html_formatter_first_witness :
  @IPython_imported env_plain_value = true
  /\ formatters sample_world = Some sample_formatters
  /\ dict_wf sample_formatters
  /\ dict_getitem "text/html" sample_formatters = Some (PyRef 11)
  /\ dict_getitem "text/plain" sample_formatters = Some (PyRef 10)
  /\ exists d',
       formatters (snd (@register_as_default env_plain_value true true sample_world))
       = Some d'
       /\ d' = [("text/html", PyRef 11); ("text/plain", PyRef 10); ("image/png", PyRef 12)].
Proof.
  assert (Hwf : dict_wf sample_formatters).
  { unfold dict_wf. cbn. repeat constructor; cbn; intuition discriminate. }
  split; [reflexivity |]. split; [reflexivity |]. split; [exact Hwf |].
  split; [reflexivity |]. split; [reflexivity |].
  destruct (@C5_html_formatter_first env_plain_value true true sample_world
              sample_formatters (PyRef 11) (PyRef 10) (PyRef 42) (PyRef 42)
              sample_store sample_store
              eq_refl eq_refl Hwf eq_refl eq_refl eq_refl eq_refl)
    as (d' & Hd' & Heq & _).
  exists d'. split; [exact Hd' | exact Heq].
Defined.

Lemma C8_host_unavailable_witness :
  @IPython_imported env_without_IPython = false
  /\ @display env_without_IPython (PyRef 0) false false sample_world
     = (Raised (RuntimeError "Cannot use `display` outside of IPython."), sample_world)
  /\ @register_as_default env_without_IPython true true sample_world
     = (Raised (RuntimeError "Cannot use `register_as_default` outside of IPython."),
        sample_world).
Proof.
  split; [reflexivity |].
  destruct (@C8_host_unavailable env_without_IPython eq_refl)
    as (Hdisplay & _ & Hregister & _).
  split; [apply Hdisplay | apply Hregister].
Defined.

(** ** The cell magics *)

Section Magics.

Context {E : Environment}.

Lemma truthy_strip (line : string) :
  truthy (PyStr (strip line)) = true <-> strip line <> "".
Proof.
  cbn. destruct (String.eqb_spec (strip line) ""); cbn; split; congruence.
Qed.

Lemma contextual_value_eta (cv : ContextualValue) :
  {| permanent := permanent cv; overrides := overrides cv |} = cv.
Proof. destruct cv; reflexivity. Qed.

(** Releasing the guard never calls a collaborator. *)
Ltac exit_scope :=
  match goal with
  | |- context [overrides (active_autovisualizer ?s)] =>
    destruct (overrides (active_autovisualizer s)) as [| ? ?]; cbn;
    [| match goal with
       | |- context [(?a =? ?b)%nat] => destruct (a =? b)%nat; cbn
       end]
  end.

(** Lines 322-323 when the cell body leaves the context value as it found it:
    the body runs once, with [v] pushed; afterwards the context value is what
    it was before the [with]; the outcome is the body's. *)
Lemma scoped_run (v : PyObj) (cell : string) (w : World) :
  leaves_active_autovisualizer (ShellRunCell cell) ->
  let run := with_stmt (set_scoped_active_autovisualizer v)
               (fun _ => bind (external (ShellRunCell cell)) (fun _ => ret None))
               (ret tt) w in
  calls (snd run) = calls w ++ [(ShellRunCell cell, pushed v (store w))]
  /\ active_autovisualizer (store (snd run)) = active_autovisualizer (store w)
  /\ fst run = match fst (respond (ShellRunCell cell) (pushed v (store w))) with
               | Returns _ => Returned tt
               | Raises e => Raised (Foreign e)
               end.
Proof.
  intros Hbody. unfold with_stmt. cbn. unfold external. cbn.
  fold (pushed v (store w)).
  pose proof (Hbody (pushed v (store w))) as Hkeep.
  destruct (respond (ShellRunCell cell) (pushed v (store w))) as [[y | e] s2];
    cbn in Hkeep |- *; rewrite Hkeep; cbn; rewrite Nat.eqb_refl; cbn;
    rewrite contextual_value_eta; auto.
Qed.

(** C6. [%%autovisualize] with a line that is not blank evaluates the line
    with [shell.ev] and runs the cell with the result as the current
    autovisualizer; with a blank line it evaluates nothing and uses the current
    value of [default_magic_autovisualizer]; in both cases [None] is replaced by
    [lambda value, path: None], which returns [None] for every value and
    path. *)
Theorem C6_autovisualizer_choice (line cell : string) (w : World) :
  (strip line <> "" ->
   forall x s1, respond (ShellEv line) (store w) = (Returns x, s1) ->
     exists s_body,
       calls (snd (autovisualize line cell w))
       = calls w ++ [(ShellEv line, store w); (ShellRunCell cell, s_body)]
       /\ (x = PyNone ->
           get (active_autovisualizer s_body) = PyLocal lambda_value_path_None)
       /\ (x <> PyNone -> get (active_autovisualizer s_body) = x))
  /\ (strip line = "" ->
      exists s_body,
        calls (snd (autovisualize line cell w)) = calls w ++ [(ShellRunCell cell, s_body)]
        /\ (get (default_magic_autovisualizer (store w)) = PyNone ->
            get (active_autovisualizer s_body) = PyLocal lambda_value_path_None)
        /\ (get (default_magic_autovisualizer (store w)) <> PyNone ->
            get (active_autovisualizer s_body)
            = get (default_magic_autovisualizer (store w))))
  /\ (forall value path, call_lambda_value_path_None [value; path] = Returned PyNone).
Proof.
  split; [| split].
  - intros Hline x s1 Hev. apply truthy_strip in Hline.
    unfold autovisualize. rewrite Hline. unfold with_stmt.
    cbn. unfold external. rewrite Hev. cbn.
    eexists. split; [| split].
    + destruct (respond (ShellRunCell cell) _) as [[y | e] s2]; cbn;
        exit_scope; rewrite <- app_assoc; reflexivity.
    + intros ->. reflexivity.
    + intros Hx. cbn. destruct x; cbn; congruence.
  - intros Hline.
    assert (Hfalse : truthy (PyStr (strip line)) = false).
    { destruct (truthy (PyStr (strip line))) eqn:Ht; [| reflexivity].
      apply truthy_strip in Ht. contradiction. }
    unfold autovisualize. rewrite Hfalse. unfold with_stmt.
    cbn. unfold external. cbn.
    eexists. split; [| split].
    + destruct (respond (ShellRunCell cell) _) as [[y | e] s2]; cbn;
        exit_scope; reflexivity.
    + intros ->. reflexivity.
    + intros Hx. cbn.
      destruct (get (default_magic_autovisualizer (store w))); cbn; congruence.
  - reflexivity.
Qed.

(** C7. When the code on the magic line and in the cell body leaves
    [active_autovisualizer] as it found it, [%%autovisualize] runs the body
    with one override pushed on the stack the context value had before the
    cell, and afterwards the context value, and so its [get()], is what it was
    before the cell: after the body returned, in which case the magic returns,
    and after the body raised, in which case the exception goes on to the
    caller.  The body is run, once, and the override in force while it runs is
    the visualizer the magic chose: on a blank line the default, otherwise what
    the line evaluated to, [None] replaced by the no-op in both cases. *)
Theorem C7_scope_restored (line cell : string) (w : World) :
  leaves_active_autovisualizer (ShellEv line) ->
  leaves_active_autovisualizer (ShellRunCell cell) ->
  exists new,
    calls (snd (autovisualize line cell w)) = calls w ++ new
    /\ (forall s, In (ShellRunCell cell, s) new ->
          exists v,
            overrides (active_autovisualizer s)
            = v :: overrides (active_autovisualizer (store w))
            /\ permanent (active_autovisualizer s)
               = permanent (active_autovisualizer (store w))
            /\ get (active_autovisualizer s) = v)
    /\ active_autovisualizer (store (snd (autovisualize line cell w)))
       = active_autovisualizer (store w)
    /\ get (active_autovisualizer (store (snd (autovisualize line cell w))))
       = get (active_autovisualizer (store w))
    /\ (forall s e, In (ShellRunCell cell, s) new ->
          fst (respond (ShellRunCell cell) s) = Raises e ->
          fst (autovisualize line cell w) = Raised (Foreign e))
    /\ (forall s y, In (ShellRunCell cell, s) new ->
          fst (respond (ShellRunCell cell) s) = Returns y ->
          fst (autovisualize line cell w) = Returned tt)
    /\ (strip line = "" ->
        new = [(ShellRunCell cell,
                pushed (visualizer_for (get (default_magic_autovisualizer (store w))))
                  (store w))])
    /\ (strip line <> "" ->
        forall x s1,
          respond (ShellEv line) (store w) = (Returns x, s1) ->
          new = [(ShellEv line, store w);
                 (ShellRunCell cell, pushed (visualizer_for x) s1)]).
Proof.
  intros Hev Hbody.
  unfold autovisualize.
  destruct (truthy (PyStr (strip line))) eqn:Hline.
  - cbn -[with_stmt set_scoped_active_autovisualizer]. rewrite external_eq.
    pose proof (Hev (store w)) as Hkeep.
    destruct (respond (ShellEv line) (store w)) as [[x | e] s1];
      cbn -[with_stmt set_scoped_active_autovisualizer] in Hkeep |- *.
    + match goal with
      | |- context [with_stmt ?cm ?body ?rest ?w1] =>
        destruct (@scoped_run (if is_None x then PyLocal lambda_value_path_None else x)
                    cell w1 Hbody) as (Hcalls & Hactive & Hout)
      end.
      cbn -[with_stmt set_scoped_active_autovisualizer] in Hcalls, Hactive, Hout.
      eexists. split; [rewrite Hcalls, <- app_assoc; reflexivity |].
      rewrite Hactive, Hkeep, Hout.
      repeat split.
      * intros s [Heq | [Heq | []]]; [discriminate Heq |]. inversion Heq; subst.
        eexists. cbn. rewrite Hkeep. repeat split.
      * intros s e [Heq | [Heq | []]] Hr; [discriminate Heq |]. inversion Heq; subst.
        rewrite Hr. reflexivity.
      * intros s y [Heq | [Heq | []]] Hr; [discriminate Heq |]. inversion Heq; subst.
        rewrite Hr. reflexivity.
      * intros Hblank. apply truthy_strip in Hline. contradiction.
      * intros _ x' s1' Heq. inversion Heq; subst. reflexivity.
    + eexists. split; [reflexivity |]. rewrite Hkeep.
      repeat split.
      * intros s [Heq | []]. discriminate Heq.
      * intros s e' [Heq | []]. discriminate Heq.
      * intros s y [Heq | []]. discriminate Heq.
      * intros Hblank. apply truthy_strip in Hline. contradiction.
      * intros _ x' s1' Heq. discriminate Heq.
  - cbn -[with_stmt set_scoped_active_autovisualizer].
    match goal with
    | |- context [with_stmt (set_scoped_active_autovisualizer ?v) _ _ _] =>
      destruct (@scoped_run v cell w Hbody) as (Hcalls & Hactive & Hout)
    end.
    cbn -[with_stmt set_scoped_active_autovisualizer] in Hcalls, Hactive, Hout.
    eexists. split; [exact Hcalls |].
    rewrite Hactive, Hout.
    repeat split.
    + intros s [Heq | []]. inversion Heq; subst. eexists. cbn. repeat split.
    + intros s e [Heq | []] Hr. inversion Heq; subst. rewrite Hr. reflexivity.
    + intros s y [Heq | []] Hr. inversion Heq; subst. rewrite Hr. reflexivity.
    + intros Hfilled. apply truthy_strip in Hfilled. rewrite Hline in Hfilled.
      discriminate Hfilled.
Qed.

(** C9. When [shell.ev] raises on the line of [%%with], or on a line of
    [%%autovisualize] that is not blank, the magic raises that same exception
    and the world is the one [shell.ev] left: the log has gained the evaluation
    and nothing else, so no scope was entered and the cell body was not
    run. *)
Theorem C9_expression_error_propagates (line cell : string) (w : World)
  (e : ForeignExn) (s' : Store) :
  respond (ShellEv line) (store w) = (Raises e, s') ->
  let after_ev := {| calls := calls w ++ [(ShellEv line, store w)];
                     store := s';
                     formatters := formatters w |} in
  with_ line cell w = (Raised (Foreign e), after_ev)
  /\ (strip line <> "" -> autovisualize line cell w = (Raised (Foreign e), after_ev)).
Proof.
  intros Hev after_ev. split.
  - unfold with_. cbn. unfold external. rewrite Hev. reflexivity.
  - intros Hline. apply truthy_strip in Hline.
    unfold autovisualize. rewrite Hline. cbn. unfold external. rewrite Hev.
    reflexivity.
Qed.

End Magics.

(** [%%autovisualize None] disables visualization for the cell. *)
Lemma C6_autovisualizer_choice_witness :
  strip "None" <> ""
  /\ @respond env_failing_cell (ShellEv "None") (store sample_world)
     = (Returns PyNone, sample_store)
  /\ exists s_body,
       calls (snd (@autovisualize env_failing_cell "None" "x = 1" sample_world))
       = calls sample_world ++ [(ShellEv "None", store sample_world);
                                (ShellRunCell "x = 1", s_body)]
       /\ get (active_autovisualizer s_body) = PyLocal lambda_value_path_None.
Proof.
  assert (Hline : strip "None" <> "") by (vm_compute; discriminate).
  split; [exact Hline |]. split; [reflexivity |].
  destruct (@C6_autovisualizer_choice env_failing_cell "None" "x = 1" sample_world)
    as (Hexplicit & _ & _).
  destruct (Hexplicit Hline PyNone sample_store eq_refl) as (s_body & Hcalls & Hnone & _).
  exists s_body. split; [exact Hcalls | exact (Hnone eq_refl)].
Defined.

(** A cell body that raises: the exception reaches the caller and the context
    value is back to its value before the cell. *)
Lemma C7_scope_restored_witness :
  @leaves_active_autovisualizer env_failing_cell (ShellEv "")
  /\ @leaves_active_autovisualizer env_failing_cell (ShellRunCell "1/0")
  /\ calls (snd (@autovisualize env_failing_cell "" "1/0" sample_world))
     = calls sample_world
       ++ [(ShellRunCell "1/0",
            pushed (visualizer_for (get (default_magic_autovisualizer sample_store)))
              sample_store)]
  /\ get (active_autovisualizer
            (store (snd (@autovisualize env_failing_cell "" "1/0" sample_world))))
     = get (active_autovisualizer (store sample_world))
  /\ fst (@autovisualize env_failing_cell "" "1/0" sample_world)
     = Raised (Foreign (ForeignOther 1)).
Proof.
  assert (Hev : @leaves_active_autovisualizer env_failing_cell (ShellEv ""))
    by (intros s; reflexivity).
  assert (Hbody : @leaves_active_autovisualizer env_failing_cell (ShellRunCell "1/0"))
    by (intros s; reflexivity).
  split; [exact Hev |]. split; [exact Hbody |].
  destruct (@C7_scope_restored env_failing_cell "" "1/0" sample_world Hev Hbody)
    as (new & Hcalls & _ & _ & Hget & Hraise & _ & Hblank & _).
  rewrite (Hblank eq_refl) in Hcalls, Hraise.
  split; [exact Hcalls |]. split; [exact Hget |].
  exact (Hraise _ (ForeignOther 1) (or_introl eq_refl) eq_refl).
Defined.

Lemma C9_expression_error_propagates_witness :
  @respond env_failing_line (ShellEv "undefined_name") (store sample_world)
  = (Raises (ForeignOther 2), sample_store)
  /\ @with_ env_failing_line "undefined_name" "x = 1" sample_world
     = (Raised (Foreign (ForeignOther 2)),
        {| calls := [(ShellEv "undefined_name", sample_store)];
           store := sample_store;
           formatters := Some sample_formatters |}).
Proof.
  split; [reflexivity |].
  pose proof (@C9_expression_error_propagates env_failing_line "undefined_name"
                "x = 1" sample_world (ForeignOther 2) sample_store eq_refl) as H.
  cbv zeta in H. destruct H as [H _]. exact H.
Defined.

(** * Further properties *)

(** ** [show] *)

Section Show.

Context {E : Environment}.

Lemma separated_args_eq (sep : PyObj) (args acc : list PyObj) :
  fold_left (fun acc arg => (acc ++ [arg]) ++ [sep]) args acc
  = acc ++ flat_map (fun arg => [arg; sep]) args.
Proof.
  revert acc. induction args as [| a args IH]; intros acc; cbn.
  - now rewrite app_nil_r.
  - rewrite IH, <- !app_assoc. reflexivity.
Qed.

Lemma removelast_separated (sep : PyObj) (args : list PyObj) :
  removelast (flat_map (fun arg => [arg; sep]) args) = intersperse sep args.
Proof.
  induction args as [| a [| b args] IH]; [reflexivity | reflexivity |].
  change (flat_map (fun arg => [arg; sep]) (a :: b :: args))
    with (a :: sep :: flat_map (fun arg => [arg; sep]) (b :: args)).
  change (intersperse sep (a :: b :: args)) with (a :: sep :: intersperse sep (b :: args)).
  rewrite <- IH. cbn. reflexivity.
Qed.

Lemma intersperse_length (sep : PyObj) (xs : list PyObj) :
  length (intersperse sep xs) = 2 * length xs - 1.
Proof.
  induction xs as [| a [| b xs] IH]; [reflexivity | reflexivity |].
  change (intersperse sep (a :: b :: xs)) with (a :: sep :: intersperse sep (b :: xs)).
  cbn [length] in *. lia.
Qed.

Lemma intersperse_even (sep : PyObj) (xs : list PyObj) (i : nat) :
  i < length xs -> nth_error (intersperse sep xs) (2 * i) = nth_error xs i.
Proof.
  revert i. induction xs as [| a [| b xs] IH]; intros i Hi.
  - cbn in Hi. lia.
  - cbn in Hi. assert (i = 0) by lia. subst. reflexivity.
  - change (intersperse sep (a :: b :: xs)) with (a :: sep :: intersperse sep (b :: xs)).
    destruct i as [| i]; [reflexivity |].
    replace (2 * S i) with (S (S (2 * i))) by lia. cbn [nth_error].
    apply IH. cbn [length] in *. lia.
Qed.

Lemma intersperse_odd (sep : PyObj) (xs : list PyObj) (i : nat) :
  S i < length xs -> nth_error (intersperse sep xs) (2 * i + 1) = Some sep.
Proof.
  revert i. induction xs as [| a [| b xs] IH]; intros i Hi.
  - cbn in Hi. lia.
  - cbn in Hi. lia.
  - change (intersperse sep (a :: b :: xs)) with (a :: sep :: intersperse sep (b :: xs)).
    destruct i as [| i]; [reflexivity |].
    replace (2 * S i + 1) with (S (S (2 * i + 1))) by lia. cbn [nth_error].
    apply IH. cbn [length] in *. lia.
Qed.

(** X1. With IPython present, [show] in its default mode hands
    [figures.inline] the arguments in their order with one [" "] between any
    two neighbours and none at either end: [2n - 1] objects for [n]
    arguments. The result of [figures.inline] is what is displayed. *)
Theorem X1_show_separates (args : list PyObj) (wrap : bool) (w : World) :
  IPython_imported = true ->
  exists shown,
    show args wrap true w
    = (fig <- external (FiguresInline shown wrap) ;;
       _ <- external (Display fig) ;; ret tt) w
    /\ shown = intersperse (PyStr " ") args
    /\ length shown = 2 * length args - 1
    /\ (forall i, i < length args -> nth_error shown (2 * i) = nth_error args i)
    /\ (forall i, S i < length args -> nth_error shown (2 * i + 1) = Some (PyStr " ")).
Proof.
  intros Himp. exists (intersperse (PyStr " ") args).
  split; [| split; [reflexivity | split; [apply intersperse_length | split]]].
  - unfold show. rewrite Himp. cbn [negb andb].
    destruct args as [| a args]; [reflexivity |].
    cbn [negb]. rewrite separated_args_eq. cbn [app].
    rewrite removelast_separated. reflexivity.
  - apply intersperse_even.
  - apply intersperse_odd.
Qed.

(** X2. With IPython present, [show] with [space_separated=False] hands
    [figures.inline] the arguments as they are, and so does [show] with no
    argument in either mode: nothing is added to an empty list. *)
Theorem X2_show_unseparated (args : list PyObj) (wrap space_separated : bool)
  (w : World) :
  IPython_imported = true ->
  space_separated = false \/ args = [] ->
  show args wrap space_separated w
  = (fig <- external (FiguresInline args wrap) ;;
     _ <- external (Display fig) ;; ret tt) w.
Proof.
  intros Himp Hcase. unfold show. rewrite Himp. cbn [negb].
  destruct Hcase as [-> | ->]; [reflexivity |].
  rewrite andb_false_r. reflexivity.
Qed.

End Show.

(** ** [display] *)

Section Display.

Context {E : Environment}.

(** X24. With IPython present, [display] first renders the value to HTML
    with the flags it was given and with compression on; what it displays, if
    anything, is the [IPython.display.HTML] wrapping of that rendering; and it
    returns exactly when the display call returned, so a failure of the
    renderer or of the wrapping displays nothing and reaches the caller. *)
Theorem X24_display_chain (value : PyObj) (ignore_exceptions roundtrip_mode : bool)
  (w : World) :
  IPython_imported = true ->
  exists new,
    calls (snd (display value ignore_exceptions roundtrip_mode w)) = calls w ++ new
    /\ hd_error (map fst new)
       = Some (RenderToHtml value ignore_exceptions roundtrip_mode true)
    /\ (forall obj, called new (Display obj) ->
          exists html,
            answered new (RenderToHtml value ignore_exceptions roundtrip_mode true) html
            /\ answered new (DisplayHTML html) obj)
    /\ (fst (display value ignore_exceptions roundtrip_mode w) = Returned tt
        <-> exists obj x, answered new (Display obj) x).
Proof.
  intros Himp. unfold display. rewrite Himp. cbn [negb].
  repeat step_env.
  all: close_log.
  all: split; [reflexivity |].
  all: split;
       [ intros obj Hin; unfold called in Hin; cbn in Hin;
         repeat (destruct Hin as [Hin | Hin]; [try discriminate Hin |]);
         try contradiction; inversion Hin; subst;
         eexists; split; solve_answered
       | ].
  all: split;
       [ intros Hret; try discriminate Hret; do 2 eexists; solve_answered
       | intros (obj & y & Hans); use_answered Hans; reflexivity ].
Qed.

End Display.

Lemma X1_show_separates_witness :
  @IPython_imported env_plain_value = true
  /\ map fst (calls (snd (@show env_plain_value [PyStr "a"; PyRef 1; PyRef 2] false true
                            sample_world)))
     = [FiguresInline [PyStr "a"; PyStr " "; PyRef 1; PyStr " "; PyRef 2] false;
        Display (PyRef 42)].
Proof.
  split; [reflexivity |].
  destruct (@X1_show_separates env_plain_value [PyStr "a"; PyRef 1; PyRef 2] false
              sample_world eq_refl) as (shown & Heq & Hshown & _).
  rewrite Heq, Hshown. reflexivity.
Defined.

Lemma X24_display_chain_witness :
  @IPython_imported env_plain_value = true
  /\ exists new,
       calls (snd (@display env_plain_value (PyRef 0) true false sample_world))
       = calls sample_world ++ new
       /\ hd_error (map fst new) = Some (RenderToHtml (PyRef 0) true false true).
Proof.
  split; [reflexivity |].
  destruct (@X24_display_chain env_plain_value (PyRef 0) true false sample_world
              eq_refl) as (new & Hcalls & Hfirst & _).
  exists new. split; [exact Hcalls | exact Hfirst].
Defined.

Lemma X2_show_unseparated_witness :
  @IPython_imported env_plain_value = true
  /\ map fst (calls (snd (@show env_plain_value [] true true sample_world)))
     = [FiguresInline [] true; Display (PyRef 42)].
Proof.
  split; [reflexivity |].
  rewrite (@X2_show_unseparated env_plain_value [] true true sample_world eq_refl
             (or_intror eq_refl)).
  reflexivity.
Defined.

(** ** More on [register_as_default] *)

Section RegistrationMore.

Context {E : Environment}.

(** The loop of lines 233-235 never raises, calls nothing and leaves the
    store alone, whatever the registry. *)
Lemma reorder_loop_frame (old : Dict) :
  forall (acc : Dict) (log : list (Call * Store)) (s : Store),
  exists acc',
    for_each old reorder_body {| calls := log; store := s; formatters := Some acc |}
    = (Returned tt, {| calls := log; store := s; formatters := Some acc' |}).
Proof.
  induction old as [| [k v] old IH]; intros acc log s.
  - exists acc. reflexivity.
  - cbn [for_each]. cbn -[for_each].
    destruct (negb (k =? "text/html")); cbn -[for_each].
    + apply IH.
    + apply IH.
Qed.

(** [register_as_default] up to the Colab tweaks. *)
Lemma register_as_default_steps (streaming compress_html : bool) (w : World)
  (d : Dict) (html text x1 x2 : PyObj) (s1 s2 : Store) :
  IPython_imported = true ->
  formatters w = Some d ->
  dict_getitem "text/html" d = Some html ->
  dict_getitem "text/plain" d = Some text ->
  respond (html_registration streaming compress_html html) (store w) = (Returns x1, s1) ->
  respond (text_registration text) s1 = (Returns x2, s2) ->
  exists d',
    register_as_default streaming compress_html w
    = colab_tweaks
        {| calls := calls w
                    ++ [(html_registration streaming compress_html html, store w);
                        (text_registration text, s1)];
           store := s2;
           formatters := Some d' |}
    /\ (dict_wf d -> d' = ("text/html", html) :: filter not_html d).
Proof.
  intros Himp Hd Hhtml Htext Hr1 Hr2.
  unfold html_registration, text_registration in *.
  unfold register_as_default. rewrite Himp.
  destruct w as [log s fs]. cbn in Hd, Hr1. subst fs.
  cbn -[for_each]. unfold get_ipython. cbn -[for_each].
  rewrite Hhtml. cbn -[for_each]. unfold external at 1. cbn -[for_each].
  rewrite Hr1. cbn -[for_each]. rewrite Htext. cbn -[for_each].
  unfold external at 1. cbn -[for_each]. rewrite Hr2. cbn -[for_each].
  match goal with
  | |- context [for_each d ?f ?w0] =>
    change (for_each d f w0) with (for_each d reorder_body w0)
  end.
  destruct (reorder_loop_frame d [("text/html", html)]
              ((log ++ [(ForType html "object"
                           (PyLocal (closure_render_for_ipython streaming compress_html)),
                         s)])
               ++ [(ForTypeByName text "jaxlib.xla_extension" "ArrayImpl"
                      (PyLocal closure_render_as_text_oneline), s1)]) s2)
    as [d' Hloop].
  exists d'. split.
  - rewrite Hloop. rewrite <- app_assoc. reflexivity.
  - intros Hwf. rewrite reorder_loop in Hloop; [| exact Hwf |].
    + inversion Hloop. reflexivity.
    + intros k _ Hk [Heq | []]. apply Hk. symmetry. exact Heq.
Qed.

(** The Colab tweaks leave the registry alone. *)
Lemma colab_tweaks_frame (w : World) :
  formatters (snd (colab_tweaks w)) = formatters w.
Proof.
  unfold colab_tweaks, try_except_pass.
  repeat (unfold external; cbn;
          match goal with
          | |- context [respond ?c ?s] => destruct (respond c s) as [[? | []] ?]
          end); reflexivity.
Qed.

Lemma printers_registered_inv (streaming compress_html : bool) (w : World) :
  printers_registered streaming compress_html w = true ->
  exists d html text x1 x2 s1 s2,
    IPython_imported = true
    /\ formatters w = Some d
    /\ dict_getitem "text/html" d = Some html
    /\ dict_getitem "text/plain" d = Some text
    /\ respond (html_registration streaming compress_html html) (store w) = (Returns x1, s1)
    /\ respond (text_registration text) s1 = (Returns x2, s2).
Proof.
  unfold printers_registered. intros H.
  destruct IPython_imported eqn:Himp; [| discriminate H]. cbn in H.
  destruct (formatters w) as [d |] eqn:Hd; [| discriminate H].
  destruct (dict_getitem "text/html" d) as [html |] eqn:Hhtml; [| discriminate H].
  destruct (dict_getitem "text/plain" d) as [text |] eqn:Htext; [| discriminate H].
  destruct (respond (html_registration streaming compress_html html) (store w))
    as [[x1 | e1] s1] eqn:Hr1; [| discriminate H].
  destruct (respond (text_registration text) s1) as [[x2 | e2] s2] eqn:Hr2;
    [| discriminate H].
  exists d, html, text, x1, x2, s1, s2. repeat split; assumption || reflexivity.
Qed.

(** X3. In a running shell whose registry has no [text/html] formatter,
    [register_as_default] raises [KeyError] for that key at once: nothing has
    been registered, no collaborator called, the registry is as it was. *)
Theorem X3_missing_html_formatter (streaming compress_html : bool) (w : World)
  (d : Dict) :
  IPython_imported = true ->
  formatters w = Some d ->
  dict_getitem "text/html" d = None ->
  register_as_default streaming compress_html w = (Raised (KeyError "text/html"), w).
Proof.
  intros Himp Hd Hhtml. unfold register_as_default. rewrite Himp.
  destruct w as [log s fs]. cbn in Hd. subst fs.
  cbn. unfold get_ipython. cbn. rewrite Hhtml. reflexivity.
Qed.

(** X4. In a running shell whose registry has [text/html] but no [text/plain]
    formatter, [register_as_default] raises [KeyError] for [text/plain] after
    the HTML printer has been registered on the [text/html] formatter: that
    registration stays, the text printer is not registered, the registry is
    not reordered and the Colab tweaks are not tried. *)
Theorem X4_missing_plain_formatter (streaming compress_html : bool) (w : World)
  (d : Dict) (html x1 : PyObj) (s1 : Store) :
  IPython_imported = true ->
  formatters w = Some d ->
  dict_getitem "text/html" d = Some html ->
  dict_getitem "text/plain" d = None ->
  respond (html_registration streaming compress_html html) (store w) = (Returns x1, s1) ->
  register_as_default streaming compress_html w
  = (Raised (KeyError "text/plain"),
     {| calls := calls w ++ [(html_registration streaming compress_html html, store w)];
        store := s1;
        formatters := Some d |}).
Proof.
  intros Himp Hd Hhtml Htext Hr1. unfold html_registration in *.
  unfold register_as_default. rewrite Himp.
  destruct w as [log s fs]. cbn in Hd, Hr1. subst fs.
  cbn. unfold get_ipython. cbn. rewrite Hhtml. cbn. unfold external. cbn.
  rewrite Hr1. cbn. rewrite Htext. reflexivity.
Qed.

(** X5. [register_as_default] changes the registry only after both printers
    are registered: whenever lines 139-226 do not go through (no IPython, no
    running shell, a formatter missing, a registration that raises), the
    registry is exactly as it was. *)
Theorem X5_registry_untouched_on_failure (streaming compress_html : bool)
  (w : World) :
  printers_registered streaming compress_html w = false ->
  formatters (snd (register_as_default streaming compress_html w)) = formatters w.
Proof.
  unfold printers_registered, html_registration, text_registration, register_as_default.
  intros H. destruct IPython_imported; [| reflexivity]. cbn in H.
  destruct w as [log s fs]. cbn in H. cbn -[for_each]. unfold get_ipython. cbn -[for_each].
  destruct fs as [d |]; [| reflexivity]. cbn -[for_each].
  destruct (dict_getitem "text/html" d) as [html |]; [| reflexivity].
  cbn -[for_each]. unfold external at 1. cbn -[for_each].
  destruct (respond (ForType html _ _) s) as [[x1 | e1] s1]; [| reflexivity].
  cbn -[for_each].
  destruct (dict_getitem "text/plain" d) as [text |]; [| reflexivity].
  cbn -[for_each]. unfold external at 1. cbn -[for_each].
  destruct (respond (ForTypeByName text _ _ _) s1) as [[x2 | e2] s2];
    [discriminate H | reflexivity].
Qed.

(** X6. With IPython importable but no running shell ([get_ipython()] is
    [None]), [register_as_default], [register_autovisualize_magic] and
    [register_context_manager_magic] each fail on the attribute they read from
    the shell, before calling anything. *)
Theorem X6_no_running_shell (w : World) :
  IPython_imported = true ->
  formatters w = None ->
  (forall streaming compress_html,
     register_as_default streaming compress_html w
     = (Raised (AttributeError "display_formatter"), w))
  /\ register_autovisualize_magic w = (Raised (AttributeError "register_magics"), w)
  /\ register_context_manager_magic w = (Raised (AttributeError "register_magics"), w).
Proof.
  intros Himp Hnone.
  unfold register_as_default, register_autovisualize_magic,
    register_context_manager_magic.
  rewrite Himp. cbn. unfold get_ipython. rewrite Hnone. repeat split.
Qed.

Lemma registry_after_registration (streaming compress_html : bool) (w : World)
  (d : Dict) (html : PyObj) :
  printers_registered streaming compress_html w = true ->
  formatters w = Some d ->
  dict_wf d ->
  dict_getitem "text/html" d = Some html ->
  formatters (snd (register_as_default streaming compress_html w))
  = Some (("text/html", html) :: filter not_html d).
Proof.
  intros Hreg Hd Hwf Hhtml.
  destruct (printers_registered_inv _ _ _ Hreg)
    as (d0 & html0 & text & x1 & x2 & s1 & s2 & Himp & Hd0 & Hhtml0 & Htext & Hr1 & Hr2).
  rewrite Hd in Hd0. inversion Hd0; subst d0. rewrite Hhtml in Hhtml0.
  inversion Hhtml0; subst html0.
  destruct (register_as_default_steps streaming compress_html w Himp Hd Hhtml Htext Hr1 Hr2)
    as (d' & Heq & Hd').
  rewrite Heq, colab_tweaks_frame. cbn. rewrite (Hd' Hwf). reflexivity.
Qed.

Lemma filter_not_html_fresh (d : Dict) :
  ~ In "text/html" (map fst d) -> filter not_html d = d.
Proof.
  induction d as [| [k v] d IH]; cbn; intros Hnot; [reflexivity |].
  unfold not_html at 1. cbn [fst].
  destruct (String.eqb_spec k "text/html") as [-> | Hne]; cbn.
  - exfalso. apply Hnot. now left.
  - rewrite IH; [reflexivity |]. intros Hin. apply Hnot. now right.
Qed.

Lemma reordered_permutation (d : Dict) (html : PyObj) :
  dict_wf d ->
  dict_getitem "text/html" d = Some html ->
  Permutation d (("text/html", html) :: filter not_html d).
Proof.
  unfold dict_wf. induction d as [| [k v] d IH]; cbn; intros Hwf Hhtml;
    [discriminate Hhtml |].
  inversion Hwf as [| ? ? Hk Hwf']; subst.
  unfold not_html at 1. cbn [fst].
  destruct (String.eqb_spec k "text/html") as [-> | Hne]; cbn.
  - inversion Hhtml; subst. rewrite filter_not_html_fresh by exact Hk. reflexivity.
  - etransitivity; [| apply perm_swap]. apply perm_skip. apply IH; assumption.
Qed.

(** X7. When registration goes through on a well-formed registry, the new
    registry is a rearrangement of the old one: the same entries, each once,
    and it is again a well-formed dictionary. *)
Theorem X7_reordering_is_a_permutation (streaming compress_html : bool)
  (w : World) (d : Dict) :
  printers_registered streaming compress_html w = true ->
  formatters w = Some d ->
  dict_wf d ->
  exists d',
    formatters (snd (register_as_default streaming compress_html w)) = Some d'
    /\ Permutation d d'
    /\ dict_wf d'.
Proof.
  intros Hreg Hd Hwf.
  destruct (printers_registered_inv _ _ _ Hreg)
    as (d0 & html & text & x1 & x2 & s1 & s2 & Himp & Hd0 & Hhtml & _).
  rewrite Hd in Hd0. inversion Hd0; subst d0.
  exists (("text/html", html) :: filter not_html d).
  split; [apply registry_after_registration; assumption |].
  pose proof (reordered_permutation Hwf Hhtml) as Hperm.
  split; [exact Hperm |].
  unfold dict_wf in *. eapply Permutation_NoDup; [| exact Hwf].
  apply Permutation_map. exact Hperm.
Qed.

(** X8. Registering a second time, with whatever options, leaves the registry
    as the first registration left it, provided the formatters accept the
    registrations. *)
Theorem X8_registration_is_idempotent (streaming compress_html streaming'
  compress_html' : bool) (w : World) (d : Dict) :
  printers_registered streaming compress_html w = true ->
  formatters w = Some d ->
  dict_wf d ->
  (forall c s, is_registration c = true -> exists x, fst (respond c s) = Returns x) ->
  formatters (snd (register_as_default streaming' compress_html'
                     (snd (register_as_default streaming compress_html w))))
  = formatters (snd (register_as_default streaming compress_html w)).
Proof.
  intros Hreg Hd Hwf Haccept.
  destruct (printers_registered_inv _ _ _ Hreg)
    as (d0 & html & text & x1 & x2 & s1 & s2 & Himp & Hd0 & Hhtml & Htext & _).
  rewrite Hd in Hd0. inversion Hd0; subst d0.
  pose proof (registry_after_registration _ _ _ Hreg Hd Hwf Hhtml) as Hfirst.
  set (w1 := snd (register_as_default streaming compress_html w)) in *.
  set (d1 := ("text/html", html) :: filter not_html d) in *.
  assert (Hhtml1 : dict_getitem "text/html" d1 = Some html).
  { unfold d1. cbn. rewrite String.eqb_refl. reflexivity. }
  assert (Htext1 : dict_getitem "text/plain" d1 = Some text).
  { unfold d1. cbn. destruct (String.eqb_spec "text/html" "text/plain") as [Heq | _];
      [discriminate Heq |].
    rewrite dict_getitem_filter; [exact Htext | discriminate]. }
  assert (Hwf1 : dict_wf d1).
  { unfold dict_wf in *. eapply Permutation_NoDup; [| exact Hwf].
    apply Permutation_map. apply reordered_permutation; assumption. }
  assert (Hreg1 : printers_registered streaming' compress_html' w1 = true).
  { unfold printers_registered. rewrite Himp, Hfirst, Hhtml1, Htext1. cbn.
    destruct (Haccept (html_registration streaming' compress_html' html) (store w1)
                eq_refl) as [y1 Hy1].
    destruct (respond (html_registration streaming' compress_html' html) (store w1))
      as [r1 t1]. cbn in Hy1. subst r1.
    destruct (Haccept (text_registration text) t1 eq_refl) as [y2 Hy2].
    rewrite Hy2. reflexivity. }
  rewrite (registry_after_registration _ _ _ Hreg1 Hfirst Hwf1 Hhtml1), Hfirst.
  unfold d1. cbn [filter]. unfold not_html at 1. cbn [fst].
  rewrite String.eqb_refl. cbn [negb]. rewrite filter_idem. reflexivity.
Qed.

(** One step through the Colab tweaks: the answer is looked up in what is
    assumed of the environment. *)
Ltac colab_step :=
  unfold external; cbn;
  match goal with
  | H : forall s, _ |- context [respond ?c ?s0] =>
    let Hs := fresh "Hs" in
    pose proof (H s0) as Hs;
    match type of Hs with
    | context [respond c s0] => idtac
    end;
    destruct (respond c s0) as [[? | []] ?]; cbn in Hs;
    lazymatch type of Hs with
    | ex _ => try (destruct Hs as [? Hs]; discriminate Hs)
    | _ => try discriminate Hs
    end;
    clear Hs; cbn
  end.

(** X9. Outside Colab, where the import of line 238 fails, a registration that
    went through returns normally: the [ImportError] is swallowed and none of
    the three Colab switches is called. *)
Theorem X9_outside_colab (streaming compress_html : bool) (w : World) :
  printers_registered streaming compress_html w = true ->
  (forall s, fst (respond ImportColabReprs s) = Raises ForeignImportError) ->
  fst (register_as_default streaming compress_html w) = Returned tt
  /\ exists html text,
       map fst (calls (snd (register_as_default streaming compress_html w)))
       = map fst (calls w)
         ++ [html_registration streaming compress_html html;
             text_registration text;
             ImportColabReprs].
Proof.
  intros Hreg Himport.
  destruct (printers_registered_inv _ _ _ Hreg)
    as (d & html & text & x1 & x2 & s1 & s2 & Himp & Hd & Hhtml & Htext & Hr1 & Hr2).
  destruct (register_as_default_steps streaming compress_html w Himp Hd Hhtml Htext Hr1 Hr2)
    as (d' & Heq & _).
  rewrite Heq. unfold colab_tweaks, try_except_pass.
  colab_step.
  split; [reflexivity |]. exists html, text.
  rewrite !map_app. cbn. rewrite <- app_assoc. reflexivity.
Qed.

(** X10. In Colab, a [KeyError] from [disable_ndarray_repr] or from
    [disable_function_repr] is passed over: the switch after it is still
    called and the registration returns normally. *)
Theorem X10_colab_key_errors_tolerated (streaming compress_html : bool) (w : World) :
  printers_registered streaming compress_html w = true ->
  (forall s, exists x, fst (respond ImportColabReprs s) = Returns x) ->
  (forall s, exists x, fst (respond DisableStringRepr s) = Returns x) ->
  (forall s, tolerated (fst (respond DisableNdarrayRepr s)) = true) ->
  (forall s, tolerated (fst (respond DisableFunctionRepr s)) = true) ->
  fst (register_as_default streaming compress_html w) = Returned tt
  /\ exists html text,
       map fst (calls (snd (register_as_default streaming compress_html w)))
       = map fst (calls w)
         ++ [html_registration streaming compress_html html;
             text_registration text;
             ImportColabReprs;
             DisableStringRepr;
             DisableNdarrayRepr;
             DisableFunctionRepr].
Proof.
  intros Hreg Himport Hstring Hndarray Hfunction.
  destruct (printers_registered_inv _ _ _ Hreg)
    as (d & html & text & x1 & x2 & s1 & s2 & Himp & Hd & Hhtml & Htext & Hr1 & Hr2).
  destruct (register_as_default_steps streaming compress_html w Himp Hd Hhtml Htext Hr1 Hr2)
    as (d' & Heq & _).
  rewrite Heq. unfold colab_tweaks, try_except_pass.
  colab_step. colab_step. colab_step; colab_step.
  all: split; [reflexivity |]; exists html, text;
       rewrite !map_app; cbn; rewrite <- !app_assoc; reflexivity.
Qed.

(** X11. In Colab, a [KeyError] from [disable_string_repr] is not passed
    over: it reaches the caller of [register_as_default], and the two other
    switches are not called.  The registry has been reordered by then. *)
Theorem X11_colab_string_key_error_propagates (streaming compress_html : bool)
  (w : World) :
  printers_registered streaming compress_html w = true ->
  (forall s, exists x, fst (respond ImportColabReprs s) = Returns x) ->
  (forall s, fst (respond DisableStringRepr s) = Raises ForeignKeyError) ->
  fst (register_as_default streaming compress_html w) = Raised (Foreign ForeignKeyError)
  /\ exists html text,
       map fst (calls (snd (register_as_default streaming compress_html w)))
       = map fst (calls w)
         ++ [html_registration streaming compress_html html;
             text_registration text;
             ImportColabReprs;
             DisableStringRepr].
Proof.
  intros Hreg Himport Hstring.
  destruct (printers_registered_inv _ _ _ Hreg)
    as (d & html & text & x1 & x2 & s1 & s2 & Himp & Hd & Hhtml & Htext & Hr1 & Hr2).
  destruct (register_as_default_steps streaming compress_html w Himp Hd Hhtml Htext Hr1 Hr2)
    as (d' & Heq & _).
  rewrite Heq. unfold colab_tweaks, try_except_pass.
  colab_step. colab_step.
  split; [reflexivity |]. exists html, text.
  rewrite !map_app. cbn. rewrite <- !app_assoc. reflexivity.
Qed.

End RegistrationMore.

Lemma sample_formatters_wf : dict_wf sample_formatters.
Proof.
  unfold dict_wf. cbn. repeat constructor; cbn; intuition discriminate.
Qed.

Lemma X3_missing_html_formatter_witness :
  @IPython_imported env_plain_value = true
  /\ formatters world_without_html = Some [("text/plain", PyRef 10)]
  /\ dict_getitem "text/html" [("text/plain", PyRef 10)] = None
  /\ @register_as_default env_plain_value true true world_without_html
     = (Raised (KeyError "text/html"), world_without_html).
Proof.
  repeat (split; [reflexivity |]).
  apply (@X3_missing_html_formatter env_plain_value true true world_without_html
           [("text/plain", PyRef 10)] eq_refl eq_refl eq_refl).
Defined.

Lemma X4_missing_plain_formatter_witness :
  @IPython_imported env_plain_value = true
  /\ dict_getitem "text/plain" [("image/png", PyRef 12); ("text/html", PyRef 11)] = None
  /\ fst (@register_as_default env_plain_value true true world_without_plain)
     = Raised (KeyError "text/plain")
  /\ formatters (snd (@register_as_default env_plain_value true true world_without_plain))
     = Some [("image/png", PyRef 12); ("text/html", PyRef 11)].
Proof.
  split; [reflexivity |]. split; [reflexivity |].
  rewrite (@X4_missing_plain_formatter env_plain_value true true world_without_plain
             [("image/png", PyRef 12); ("text/html", PyRef 11)] (PyRef 11) (PyRef 42)
             sample_store eq_refl eq_refl eq_refl eq_refl eq_refl).
  split; reflexivity.
Defined.

Lemma X5_registry_untouched_on_failure_witness :
  @printers_registered env_plain_value true true world_without_plain = false
  /\ formatters (snd (@register_as_default env_plain_value true true world_without_plain))
     = formatters world_without_plain.
Proof.
  split; [reflexivity |].
  apply (@X5_registry_untouched_on_failure env_plain_value true true
           world_without_plain eq_refl).
Defined.

Lemma X6_no_running_shell_witness :
  @IPython_imported env_plain_value = true
  /\ formatters world_without_shell = None
  /\ @register_autovisualize_magic env_plain_value world_without_shell
     = (Raised (AttributeError "register_magics"), world_without_shell).
Proof.
  split; [reflexivity |]. split; [reflexivity |].
  destruct (@X6_no_running_shell env_plain_value world_without_shell eq_refl eq_refl)
    as (_ & H & _).
  exact H.
Defined.

Lemma X7_reordering_is_a_permutation_witness :
  @printers_registered env_plain_value true true sample_world = true
  /\ formatters sample_world = Some sample_formatters
  /\ dict_wf sample_formatters
  /\ exists d',
       formatters (snd (@register_as_default env_plain_value true true sample_world))
       = Some d'
       /\ Permutation sample_formatters d'.
Proof.
  split; [reflexivity |]. split; [reflexivity |]. split; [exact sample_formatters_wf |].
  destruct (@X7_reordering_is_a_permutation env_plain_value true true sample_world
              sample_formatters eq_refl eq_refl sample_formatters_wf)
    as (d' & Hd' & Hperm & _).
  exists d'. split; [exact Hd' | exact Hperm].
Defined.

Lemma X8_registration_is_idempotent_witness :
  @printers_registered env_plain_value true true sample_world = true
  /\ (forall c s, is_registration c = true ->
        exists x, fst (@respond env_plain_value c s) = Returns x)
  /\ formatters (snd (@register_as_default env_plain_value false false
                        (snd (@register_as_default env_plain_value true true
                                sample_world))))
     = formatters (snd (@register_as_default env_plain_value true true sample_world)).
Proof.
  assert (Haccept : forall c s, is_registration c = true ->
                      exists x, fst (@respond env_plain_value c s) = Returns x)
    by (intros c s _; eexists; reflexivity).
  split; [reflexivity |]. split; [exact Haccept |].
  apply (@X8_registration_is_idempotent env_plain_value true true false false
           sample_world sample_formatters eq_refl eq_refl sample_formatters_wf Haccept).
Defined.

Lemma X9_outside_colab_witness :
  @printers_registered env_outside_colab true true sample_world = true
  /\ (forall s, fst (@respond env_outside_colab ImportColabReprs s)
                = Raises ForeignImportError)
  /\ fst (@register_as_default env_outside_colab true true sample_world) = Returned tt.
Proof.
  split; [reflexivity |]. split; [intros s; reflexivity |].
  apply (@X9_outside_colab env_outside_colab true true sample_world eq_refl).
  intros s. reflexivity.
Defined.

Lemma X10_colab_key_errors_tolerated_witness :
  @printers_registered env_colab_no_ndarray_repr true true sample_world = true
  /\ (forall s, @respond env_colab_no_ndarray_repr DisableNdarrayRepr s
                = (Raises ForeignKeyError, s))
  /\ fst (@register_as_default env_colab_no_ndarray_repr true true sample_world)
     = Returned tt.
Proof.
  split; [reflexivity |]. split; [intros s; reflexivity |].
  apply (@X10_colab_key_errors_tolerated env_colab_no_ndarray_repr true true
           sample_world eq_refl).
  - intros s. eexists. reflexivity.
  - intros s. eexists. reflexivity.
  - intros s. reflexivity.
  - intros s. reflexivity.
Defined.

Lemma X11_colab_string_key_error_propagates_witness :
  @printers_registered env_colab_no_string_repr true true sample_world = true
  /\ (forall s, fst (@respond env_colab_no_string_repr DisableStringRepr s)
                = Raises ForeignKeyError)
  /\ fst (@register_as_default env_colab_no_string_repr true true sample_world)
     = Raised (Foreign ForeignKeyError).
Proof.
  split; [reflexivity |]. split; [intros s; reflexivity |].
  apply (@X11_colab_string_key_error_propagates env_colab_no_string_repr true true
           sample_world eq_refl).
  - intros s. eexists. reflexivity.
  - intros s. reflexivity.
Defined.

(** ** More on the cell magics *)

Section MagicsMore.

Context {E : Environment}.

(** X12. [%%with]: once the line has evaluated to a manager and the manager
    is entered, the cell body is run once and [__exit__] is called exactly
    once, last, with the exception the body raised if it raised one.  The
    magic raises what [__exit__] raises; otherwise it returns when the body
    returned or [__exit__] returned a true value, and raises the body's
    exception when [__exit__] returned a false one. *)
Theorem X12_with_releases_manager (line cell : string) (w : World)
  (cm x : PyObj) (s1 s2 : Store) :
  respond (ShellEv line) (store w) = (Returns cm, s1) ->
  respond (Enter cm) s1 = (Returns x, s2) ->
  let body := respond (ShellRunCell cell) s2 in
  let exc := match fst body with
             | Returns _ => None
             | Raises e => Some (Foreign e)
             end in
  map fst (calls (snd (with_ line cell w)))
  = map fst (calls w) ++ [ShellEv line; Enter cm; ShellRunCell cell; Exit cm exc]
  /\ fst (with_ line cell w)
     = match fst (respond (Exit cm exc) (snd body)) with
       | Raises e' => Raised (Foreign e')
       | Returns r =>
         match fst body with
         | Returns _ => Returned tt
         | Raises e => if truthy r then Returned tt else Raised (Foreign e)
         end
       end.
Proof.
  intros Hev Henter body exc. subst body exc.
  unfold with_, with_stmt. cbn. unfold external. cbn. rewrite Hev. cbn.
  rewrite Henter. cbn.
  destruct (respond (ShellRunCell cell) s2) as [[y | e] s3]; cbn.
  - destruct (respond (Exit cm None) s3) as [[r | e'] s4]; cbn;
      (split; [rewrite !map_app; cbn; rewrite <- !app_assoc; reflexivity | reflexivity]).
  - destruct (respond (Exit cm (Some (Foreign e))) s3) as [[r | e'] s4]; cbn;
      [destruct (truthy r) |]; cbn;
      (split; [rewrite !map_app; cbn; rewrite <- !app_assoc; reflexivity | reflexivity]).
Qed.

(** X13. [%%with]: when [__enter__] of the manager raises, the magic raises
    that exception; the cell body is not run and [__exit__] is not called. *)
Theorem X13_with_enter_failure (line cell : string) (w : World)
  (cm : PyObj) (e : ForeignExn) (s1 s2 : Store) :
  respond (ShellEv line) (store w) = (Returns cm, s1) ->
  respond (Enter cm) s1 = (Raises e, s2) ->
  with_ line cell w
  = (Raised (Foreign e),
     {| calls := calls w ++ [(ShellEv line, store w); (Enter cm, s1)];
        store := s2;
        formatters := formatters w |}).
Proof.
  intros Hev Henter.
  unfold with_, with_stmt. cbn. unfold external. cbn. rewrite Hev. cbn.
  rewrite Henter. cbn. rewrite <- app_assoc. reflexivity.
Qed.

(** Every piece of [characters] has at least one byte. *)
Lemma characters_pieces (s : string) :
  Forall (fun piece => snd piece <> "") (characters s).
Proof.
  assert (H : forall n s, String.length s <= n ->
                Forall (fun piece => snd piece <> "") (characters s)).
  { induction n as [| n IH]; intros t Hlen.
    - destruct t; [constructor | cbn in Hlen; lia].
    - destruct t as [| c1 s1]; [constructor |]. cbn [characters].
      cbn in Hlen.
      destruct (is_space c1).
      { constructor; [discriminate | apply IH; lia]. }
      destruct s1 as [| c2 s2]; [repeat constructor; discriminate |].
      cbn in Hlen.
      destruct (is_space2 c1 c2).
      { constructor; [discriminate | apply IH; lia]. }
      destruct s2 as [| c3 s3].
      { constructor; [discriminate | apply IH; cbn; lia]. }
      cbn in Hlen.
      destruct (is_space3 c1 c2 c3).
      { constructor; [discriminate | apply IH; lia]. }
      constructor; [discriminate | apply IH; cbn; lia]. }
  apply (H (String.length s)). lia.
Qed.

Lemma text_of_empty (pieces : list (bool * string)) :
  Forall (fun piece => snd piece <> "") pieces ->
  (text_of pieces = "" <-> pieces = []).
Proof.
  intros Hne. split; [| intros ->; reflexivity].
  destruct pieces as [| [b piece] pieces]; [reflexivity |].
  inversion Hne as [| ? ? Hpiece _]; subst. cbn in Hpiece |- *.
  destruct piece; [contradiction | discriminate].
Qed.

Lemma drop_spaces_empty (pieces : list (bool * string)) :
  drop_spaces pieces = [] <-> forallb fst pieces = true.
Proof.
  induction pieces as [| [[|] piece] pieces IH]; cbn.
  - split; reflexivity.
  - exact IH.
  - split; discriminate.
Qed.

(** What is left after dropping the whitespace in front is all whitespace
    only if nothing is left. *)
Lemma drop_spaces_all_space (pieces : list (bool * string)) :
  forallb fst (drop_spaces pieces) = true -> drop_spaces pieces = [].
Proof.
  induction pieces as [| [[|] piece] pieces IH]; cbn.
  - reflexivity.
  - exact IH.
  - discriminate.
Qed.

Lemma drop_spaces_pieces (pieces : list (bool * string)) :
  Forall (fun piece => snd piece <> "") pieces ->
  Forall (fun piece => snd piece <> "") (drop_spaces pieces).
Proof.
  induction pieces as [| [[|] piece] pieces IH]; cbn; intros Hne.
  - constructor.
  - apply IH. inversion Hne; assumption.
  - exact Hne.
Qed.

Lemma forallb_rev (A : Type) (f : A -> bool) (l : list A) :
  forallb f (rev l) = forallb f l.
Proof.
  induction l as [| a l IH]; [reflexivity |].
  cbn. rewrite forallb_app, IH. cbn. rewrite andb_true_r. apply andb_comm.
Qed.

Lemma strip_empty_iff (s : string) :
  strip s = "" <-> all_space s = true.
Proof.
  unfold strip, all_space.
  pose proof (characters_pieces s) as Hne.
  rewrite text_of_empty.
  2: { apply Forall_rev, drop_spaces_pieces, Forall_rev, drop_spaces_pieces, Hne. }
  split.
  - intros H. apply (f_equal (@rev _)) in H. rewrite rev_involutive in H. cbn in H.
    apply drop_spaces_empty in H. rewrite forallb_rev in H.
    apply drop_spaces_all_space in H. apply drop_spaces_empty. exact H.
  - intros H. apply drop_spaces_empty in H. rewrite H. reflexivity.
Qed.

(** X14. [%%autovisualize] evaluates its line exactly when the line has a
    character that is not whitespace: then [shell.ev] on the line as written
    is the first thing called; on a line of whitespace only, [shell.ev] is not
    called at all. *)
Theorem X14_autovisualize_blank_line (line cell : string) (w : World) :
  exists new,
    calls (snd (autovisualize line cell w)) = calls w ++ new
    /\ if all_space line then forall l, ~ called new (ShellEv l)
       else hd_error new = Some (ShellEv line, store w).
Proof.
  unfold autovisualize.
  assert (Hline : truthy (PyStr (strip line)) = negb (all_space line)).
  { cbn. destruct (String.eqb_spec (strip line) "") as [Heq | Hne]; cbn.
    - apply strip_empty_iff in Heq. now rewrite Heq.
    - destruct (all_space line) eqn:Hall; [| reflexivity].
      apply strip_empty_iff in Hall. contradiction. }
  rewrite Hline. unfold with_stmt.
  destruct (all_space line); cbn; unfold external; cbn.
  - destruct (respond (ShellRunCell cell) _) as [[y | e] s2]; cbn.
    all: match goal with
         | |- context [overrides (active_autovisualizer ?s)] =>
           destruct (overrides (active_autovisualizer s)) as [| ? ?]; cbn;
           [| match goal with
              | |- context [(?a =? ?b)%nat] => destruct (a =? b)%nat; cbn
              end]
         end.
    all: eexists; split; [reflexivity |];
         intros evaluated Hin; unfold called in Hin; cbn in Hin;
         destruct Hin as [Heq | []]; discriminate Heq.
  - destruct (respond (ShellEv line) (store w)) as [[x | e] s1]; cbn.
    + destruct (respond (ShellRunCell cell) _) as [[y | e] s2]; cbn.
      all: match goal with
           | |- context [overrides (active_autovisualizer ?s)] =>
             destruct (overrides (active_autovisualizer s)) as [| ? ?]; cbn;
             [| match goal with
                | |- context [(?a =? ?b)%nat] => destruct (a =? b)%nat; cbn
                end]
           end.
      all: eexists; split; [rewrite <- app_assoc; reflexivity | reflexivity].
    + eexists; split; reflexivity.
Qed.

End MagicsMore.

Lemma X12_with_releases_manager_witness :
  @respond env_failing_cell (ShellEv "cm") (store sample_world)
  = (Returns PyNone, sample_store)
  /\ @respond env_failing_cell (Enter PyNone) sample_store
     = (Returns (PyRef 42), sample_store)
  /\ map fst (calls (snd (@with_ env_failing_cell "cm" "1/0" sample_world)))
     = [ShellEv "cm"; Enter PyNone; ShellRunCell "1/0";
        Exit PyNone (Some (Foreign (ForeignOther 1)))]
  /\ fst (@with_ env_failing_cell "cm" "1/0" sample_world) = Returned tt.
Proof.
  split; [reflexivity |]. split; [reflexivity |].
  pose proof (@X12_with_releases_manager env_failing_cell "cm" "1/0" sample_world
                PyNone (PyRef 42) sample_store sample_store eq_refl eq_refl) as H.
  cbv zeta in H. destruct H as [Hcalls Hout].
  split; [exact Hcalls | exact Hout].
Defined.

Lemma X13_with_enter_failure_witness :
  @respond env_failing_enter (ShellEv "cm") (store sample_world)
  = (Returns (PyRef 42), sample_store)
  /\ @respond env_failing_enter (Enter (PyRef 42)) sample_store
     = (Raises (ForeignOther 4), sample_store)
  /\ map fst (calls (snd (@with_ env_failing_enter "cm" "x = 1" sample_world)))
     = [ShellEv "cm"; Enter (PyRef 42)].
Proof.
  split; [reflexivity |]. split; [reflexivity |].
  rewrite (@X13_with_enter_failure env_failing_enter "cm" "x = 1" sample_world
             (PyRef 42) (ForeignOther 4) sample_store sample_store eq_refl eq_refl).
  reflexivity.
Defined.

(** ** More on the dispatch policy *)

Section DispatchPolicyMore.

Context {E : Environment}.

(** X15. Streaming: once the collection of deferred renderings is entered,
    it is left exactly once, by the last call the policy makes, whatever the
    value's method, the engine and the lowering do in between; no other
    context manager is entered.  [__exit__] is told of no exception exactly
    when the streaming lowering returned. *)
Theorem X15_collection_scope_closed (compress_html : bool) (value : PyObj)
  (w : World) (cm d : PyObj) (s0 s1 : Store) :
  safely_get_real_method value "_repr_html_" = None ->
  suppresses_custom_rendering value = false ->
  respond CollectingDeferredRenderings (store w) = (Returns cm, s0) ->
  respond (Enter cm) s0 = (Returns d, s1) ->
  exists new exc,
    calls (snd (_render_for_ipython true compress_html value w)) = calls w ++ new
    /\ filter is_enter_call (map fst new) = [Enter cm]
    /\ filter is_exit_call (map fst new) = [Exit cm exc]
    /\ last (map fst new) CollectingDeferredRenderings = Exit cm exc
    /\ (exc = None
        <-> exists ir h,
              answered new (DisplayStreamingAsRoot ir d false compress_html true) h).
Proof.
  intros Hh Hc Hcoll Henter.
  unfold _render_for_ipython. rewrite Hh, code_condition, Hc.
  unfold with_ExitStack.
  destruct (safely_get_real_method value "__treescope_root_repr__") as [m |];
    cbn; unfold_model; rewrite Hcoll; unfold_model; rewrite Henter;
    repeat step_env.
  all: eexists; eexists; split;
       [ rewrite <- ?app_assoc; cbn [app]; reflexivity | ].
  all: cbn; repeat split; try reflexivity.
  all: try discriminate.
  all: try (intros _; do 2 eexists; solve_answered).
  all: try (intros (ir & h & Hans); use_answered Hans).
Qed.

(** X16. Streaming: when the collection of deferred renderings cannot be
    opened, because [collecting_deferred_renderings] or its [__enter__]
    raises, the policy raises that exception and nothing is rendered: no
    method of the value is called, the engine and the lowering are not asked,
    and no [__exit__] is called. *)
Theorem X16_collection_not_opened (compress_html : bool) (value : PyObj)
  (w : World) :
  safely_get_real_method value "_repr_html_" = None ->
  suppresses_custom_rendering value = false ->
  (forall e s0,
     respond CollectingDeferredRenderings (store w) = (Raises e, s0) ->
     _render_for_ipython true compress_html value w
     = (Raised (Foreign e),
        {| calls := calls w ++ [(CollectingDeferredRenderings, store w)];
           store := s0;
           formatters := formatters w |}))
  /\ (forall cm s0 e s1,
        respond CollectingDeferredRenderings (store w) = (Returns cm, s0) ->
        respond (Enter cm) s0 = (Raises e, s1) ->
        _render_for_ipython true compress_html value w
        = (Raised (Foreign e),
           {| calls := calls w ++ [(CollectingDeferredRenderings, store w);
                                   (Enter cm, s0)];
              store := s1;
              formatters := formatters w |})).
Proof.
  intros Hh Hc. unfold _render_for_ipython. rewrite Hh, code_condition, Hc.
  unfold with_ExitStack. split.
  - intros e s0 Hcoll. cbn; unfold_model. rewrite Hcoll. reflexivity.
  - intros cm s0 e s1 Hcoll Henter. cbn; unfold_model. rewrite Hcoll.
    unfold_model. rewrite Henter. cbn. rewrite <- app_assoc. reflexivity.
Qed.

(** X17. Streaming off: on the custom-rendering path the policy does exactly
    what its collaborators do, in a row: every call but the last returned, and
    the outcome of the last call is the outcome of the policy.  So the first
    failure of the value's method, of the engine or of the lowering stops the
    policy and reaches its caller unchanged, and nothing is swallowed. *)
Theorem X17_one_shot_outcome (compress_html : bool) (value : PyObj) (w : World) :
  safely_get_real_method value "_repr_html_" = None ->
  suppresses_custom_rendering value = false ->
  exists new c s,
    calls (snd (_render_for_ipython false compress_html value w)) = calls w ++ new
    /\ last new (CollectingDeferredRenderings, store w) = (c, s)
    /\ In (c, s) new
    /\ fst (_render_for_ipython false compress_html value w)
       = outcome_of (fst (respond c s))
    /\ (forall c' s', In (c', s') (removelast new) ->
          exists x, fst (respond c' s') = Returns x).
Proof.
  intros Hh Hc. unfold _render_for_ipython. rewrite Hh, code_condition, Hc.
  unfold with_ExitStack.
  destruct (safely_get_real_method value "__treescope_root_repr__") as [m |];
    cbn; repeat step_env.
  all: eexists; eexists; eexists; split;
       [ rewrite <- ?app_assoc; cbn [app]; reflexivity | ].
  all: cbn -[In]; split; [reflexivity |].
  all: split; [cbn; tauto |].
  all: split; [rewrite_respond; reflexivity |].
  all: intros c' s' Hin; cbn in Hin;
       repeat (destruct Hin as [Hin | Hin];
               [inversion Hin; subst; eexists; rewrite_respond; reflexivity |]);
       contradiction.
Qed.

End DispatchPolicyMore.

Lemma X15_collection_scope_closed_witness :
  @safely_get_real_method env_failing_engine (PyRef 0) "_repr_html_" = None
  /\ @suppresses_custom_rendering env_failing_engine (PyRef 0) = false
  /\ @respond env_failing_engine CollectingDeferredRenderings (store sample_world)
     = (Returns (PyRef 42), sample_store)
  /\ @respond env_failing_engine (Enter (PyRef 42)) sample_store
     = (Returns (PyRef 42), sample_store)
  /\ exists new exc,
       calls (snd (@_render_for_ipython env_failing_engine true true (PyRef 0)
                     sample_world))
       = calls sample_world ++ new
       /\ last (map fst new) CollectingDeferredRenderings = Exit (PyRef 42) exc.
Proof.
  repeat (split; [reflexivity |]).
  destruct (@X15_collection_scope_closed env_failing_engine true (PyRef 0) sample_world
              (PyRef 42) (PyRef 42) sample_store sample_store
              eq_refl eq_refl eq_refl eq_refl)
    as (new & exc & Hcalls & _ & _ & Hlast & _).
  exists new, exc. split; [exact Hcalls | exact Hlast].
Defined.

Lemma X16_collection_not_opened_witness :
  @safely_get_real_method env_failing_enter (PyRef 0) "_repr_html_" = None
  /\ @suppresses_custom_rendering env_failing_enter (PyRef 0) = false
  /\ @respond env_failing_enter (Enter (PyRef 42)) sample_store
     = (Raises (ForeignOther 4), sample_store)
  /\ @_render_for_ipython env_failing_enter true true (PyRef 0) sample_world
     = (Raised (Foreign (ForeignOther 4)),
        {| calls := [(CollectingDeferredRenderings, sample_store);
                     (Enter (PyRef 42), sample_store)];
           store := sample_store;
           formatters := Some sample_formatters |}).
Proof.
  repeat (split; [reflexivity |]).
  destruct (@X16_collection_not_opened env_failing_enter true (PyRef 0) sample_world
              eq_refl eq_refl) as [_ H].
  apply (H (PyRef 42) sample_store (ForeignOther 4) sample_store eq_refl eq_refl).
Defined.

Lemma X17_one_shot_outcome_witness :
  @safely_get_real_method env_failing_engine (PyRef 0) "_repr_html_" = None
  /\ @suppresses_custom_rendering env_failing_engine (PyRef 0) = false
  /\ exists c s,
       In (c, s) (calls (snd (@_render_for_ipython env_failing_engine false true
                                (PyRef 0) sample_world)))
       /\ fst (@_render_for_ipython env_failing_engine false true (PyRef 0)
                 sample_world)
          = outcome_of (fst (@respond env_failing_engine c s)).
Proof.
  repeat (split; [reflexivity |]).
  destruct (@X17_one_shot_outcome env_failing_engine true (PyRef 0) sample_world
              eq_refl eq_refl) as (new & c & s & Hcalls & _ & Hin & Hout & _).
  exists c, s. split; [| exact Hout].
  rewrite Hcalls. apply in_or_app. right. exact Hin.
Defined.

(** ** [basic_interactive_setup] *)

Section Setup.

Context {E : Environment}.

Variable ok : Call -> Prop.

Lemma only_calls_silent (A : Type) (m : M A) :
  (forall w, calls (snd (m w)) = calls w) -> only_calls ok m.
Proof.
  intros Hm w. exists []. rewrite app_nil_r. split; [apply Hm | constructor].
Qed.

Lemma only_calls_external (c : Call) : ok c -> only_calls ok (external c).
Proof.
  intros Hc w. exists [(c, store w)]. rewrite external_eq. cbn.
  split; [reflexivity |]. repeat constructor. exact Hc.
Qed.

Lemma only_calls_bind (A B : Type) (m : M A) (k : A -> M B) :
  only_calls ok m -> (forall a, only_calls ok (k a)) -> only_calls ok (bind m k).
Proof.
  intros Hm Hk w. destruct (Hm w) as (new1 & Hcalls1 & Hok1). cbn.
  destruct (m w) as [[a | e] w1]; cbn in Hcalls1 |- *.
  - destruct (Hk a w1) as (new2 & Hcalls2 & Hok2).
    exists (new1 ++ new2). rewrite Hcalls2, Hcalls1, app_assoc.
    split; [reflexivity |]. apply Forall_app. split; assumption.
  - exists new1. split; assumption.
Qed.

Lemma only_calls_try_except_pass (catches : PyExn -> bool) (m : M unit) :
  only_calls ok m -> only_calls ok (try_except_pass catches m).
Proof.
  intros Hm w. destruct (Hm w) as (new & Hcalls & Hok).
  exists new. split; [| exact Hok].
  unfold try_except_pass. destruct (m w) as [[[] | e] w1]; cbn in Hcalls |- *;
    [exact Hcalls |]. destruct (catches e); exact Hcalls.
Qed.

Lemma only_calls_for_each (A : Type) (xs : list A) (body : A -> M unit) :
  (forall x, only_calls ok (body x)) -> only_calls ok (for_each xs body).
Proof.
  intros Hbody. induction xs as [| x xs IH]; cbn [for_each].
  - apply only_calls_silent. reflexivity.
  - apply only_calls_bind; [apply Hbody | intros _; exact IH].
Qed.

Lemma only_calls_get_ipython (attr : string) : only_calls ok (get_ipython attr).
Proof.
  apply only_calls_silent. intros w. unfold get_ipython.
  destruct (formatters w); reflexivity.
Qed.

Lemma only_calls_formatters_getitem (k : string) :
  only_calls ok (formatters_getitem k).
Proof.
  apply only_calls_silent. intros w. unfold formatters_getitem, read_formatters. cbn.
  destruct (formatters w) as [d |]; [| reflexivity].
  destruct (dict_getitem k d); reflexivity.
Qed.

Lemma only_calls_formatters_setitem (k : string) (v : PyObj) :
  only_calls ok (formatters_setitem k v).
Proof.
  apply only_calls_silent. intros w. unfold formatters_setitem, read_formatters. cbn.
  destruct (formatters w) as [d |]; reflexivity.
Qed.

Lemma only_calls_read_formatters : only_calls ok read_formatters.
Proof.
  apply only_calls_silent. intros w. unfold read_formatters.
  destruct (formatters w); reflexivity.
Qed.

End Setup.

Section SetupProperties.

Context {E : Environment}.

Lemma register_as_default_only_calls (autovisualize_arrays : bool) :
  only_calls (setup_call_ok autovisualize_arrays) (register_as_default true true).
Proof.
  unfold register_as_default. destruct IPython_imported; cbn [negb].
  2: { apply only_calls_silent. reflexivity. }
  apply only_calls_bind; [apply only_calls_get_ipython | intros _].
  apply only_calls_bind; [apply only_calls_formatters_getitem | intros html].
  apply only_calls_bind; [apply only_calls_external; cbn; auto | intros _].
  apply only_calls_bind; [apply only_calls_formatters_getitem | intros text].
  apply only_calls_bind; [apply only_calls_external; cbn; auto | intros _].
  apply only_calls_bind; [apply only_calls_read_formatters | intros old].
  apply only_calls_bind; [apply only_calls_silent; reflexivity | intros _].
  apply only_calls_bind; [apply only_calls_formatters_setitem | intros _].
  apply only_calls_bind.
  { apply only_calls_for_each. intros [k v].
    destruct (negb (k =? "text/html")).
    - apply only_calls_formatters_setitem.
    - apply only_calls_silent. reflexivity. }
  intros _. apply only_calls_try_except_pass.
  apply only_calls_bind; [apply only_calls_external; exact I | intros _].
  apply only_calls_bind; [apply only_calls_external; exact I | intros _].
  apply only_calls_bind.
  { apply only_calls_try_except_pass.
    apply only_calls_bind; [apply only_calls_external; exact I | intros _].
    apply only_calls_silent. reflexivity. }
  intros _. apply only_calls_try_except_pass.
  apply only_calls_bind; [apply only_calls_external; exact I | intros _].
  apply only_calls_silent. reflexivity.
Qed.

(** X18. Whatever happens, [basic_interactive_setup] calls nothing but: the
    registration, for every [object], of the renderer with streaming and
    compression on; the registration of the one-line text printer for
    [jaxlib.xla_extension.ArrayImpl]; the Colab switches; the registration of
    the two magics classes; and, only when [autovisualize_arrays] is set, the
    constructor of [ArrayAutovisualizer]. *)
Theorem X18_setup_calls (autovisualize_arrays : bool) :
  only_calls (setup_call_ok autovisualize_arrays)
    (basic_interactive_setup autovisualize_arrays).
Proof.
  unfold basic_interactive_setup.
  apply only_calls_bind; [apply register_as_default_only_calls | intros _].
  apply only_calls_bind.
  { unfold register_autovisualize_magic. destruct IPython_imported; cbn [negb].
    2: { apply only_calls_silent. reflexivity. }
    apply only_calls_bind; [apply only_calls_get_ipython | intros _].
    apply only_calls_bind; [apply only_calls_external; cbn; auto | intros _].
    apply only_calls_silent. reflexivity. }
  intros _. apply only_calls_bind.
  { unfold register_context_manager_magic. destruct IPython_imported; cbn [negb].
    2: { apply only_calls_silent. reflexivity. }
    apply only_calls_bind; [apply only_calls_get_ipython | intros _].
    apply only_calls_bind; [apply only_calls_external; cbn; auto | intros _].
    apply only_calls_silent. reflexivity. }
  intros _. destruct autovisualize_arrays.
  - apply only_calls_bind; [apply only_calls_external; reflexivity | intros x].
    apply only_calls_bind; [apply only_calls_silent; reflexivity | intros s].
    apply only_calls_silent. reflexivity.
  - apply only_calls_silent. reflexivity.
Qed.

Lemma bind_returned (A B : Type) (m : M A) (k : A -> M B) (w : World) (b : B) :
  fst (bind m k w) = Returned b ->
  exists a w1, m w = (Returned a, w1) /\ bind m k w = k a w1.
Proof.
  cbn. destruct (m w) as [[a | e] w1]; cbn; intros H.
  - exists a, w1. split; reflexivity.
  - discriminate H.
Qed.

(** X19. When [basic_interactive_setup] with [autovisualize_arrays] set
    returns, the permanent value of [active_autovisualizer] is the
    [ArrayAutovisualizer] it built with its last call; the overrides in force
    and [default_magic_autovisualizer] are as that call left them.  So [get()]
    yields the new visualizer as soon as no scope is open. *)
Theorem X19_setup_installs_array_autovisualizer (w : World) :
  fst (basic_interactive_setup true w) = Returned tt ->
  exists x s0,
    last (calls (snd (basic_interactive_setup true w))) (NewArrayAutovisualizer, store w)
    = (NewArrayAutovisualizer, s0)
    /\ fst (respond NewArrayAutovisualizer s0) = Returns x
    /\ let s1 := snd (respond NewArrayAutovisualizer s0) in
       let s' := store (snd (basic_interactive_setup true w)) in
       permanent (active_autovisualizer s') = x
       /\ overrides (active_autovisualizer s') = overrides (active_autovisualizer s1)
       /\ default_magic_autovisualizer s' = default_magic_autovisualizer s1
       /\ (overrides (active_autovisualizer s1) = [] ->
           get (active_autovisualizer s') = x).
Proof.
  unfold basic_interactive_setup. intros H.
  destruct (bind_returned _ _ _ H) as (a1 & w1 & _ & Heq1). rewrite Heq1 in H |- *.
  destruct (bind_returned _ _ _ H) as (a2 & w2 & _ & Heq2). rewrite Heq2 in H |- *.
  destruct (bind_returned _ _ _ H) as (a3 & w3 & _ & Heq3). rewrite Heq3 in H |- *.
  clear Heq1 Heq2 Heq3. revert H. cbn. unfold external. cbn.
  destruct (respond NewArrayAutovisualizer (store w3)) as [[x | e] s1] eqn:Hr; cbn;
    [intros _ | discriminate].
  exists x, (store w3). rewrite last_last, Hr. cbn.
  repeat split. intros Hnone. unfold get. cbn. rewrite Hnone. reflexivity.
Qed.

(** X20. Without IPython, [basic_interactive_setup] raises the [RuntimeError]
    of [register_as_default], its first step, and does nothing else. *)
Theorem X20_setup_host_unavailable (autovisualize_arrays : bool) (w : World) :
  IPython_imported = false ->
  basic_interactive_setup autovisualize_arrays w
  = (Raised (RuntimeError "Cannot use `register_as_default` outside of IPython."), w).
Proof.
  intros Himp. unfold basic_interactive_setup, register_as_default.
  rewrite Himp. reflexivity.
Qed.

End SetupProperties.

Lemma X19_setup_installs_array_autovisualizer_witness :
  fst (@basic_interactive_setup env_plain_value true sample_world) = Returned tt
  /\ exists x s0,
       fst (@respond env_plain_value NewArrayAutovisualizer s0) = Returns x
       /\ permanent (active_autovisualizer
                       (store (snd (@basic_interactive_setup env_plain_value true
                                      sample_world))))
          = x.
Proof.
  split; [reflexivity |].
  destruct (@X19_setup_installs_array_autovisualizer env_plain_value sample_world
              eq_refl) as (x & s0 & _ & Hx & Hperm & _).
  exists x, s0. split; [exact Hx | exact Hperm].
Defined.

Lemma X20_setup_host_unavailable_witness :
  @IPython_imported env_without_IPython = false
  /\ @basic_interactive_setup env_without_IPython true sample_world
     = (Raised (RuntimeError "Cannot use `register_as_default` outside of IPython."),
        sample_world).
Proof.
  split; [reflexivity |].
  apply (@X20_setup_host_unavailable env_without_IPython true sample_world eq_refl).
Defined.

(** ** The text printer *)

Example split_at_newline_example :
  split_at newline (String.append "a" (String newline (String newline "b")))
  = ["a"; ""; "b"].
Proof. reflexivity. Qed.

Example split_at_empty : split_at newline "" = [""].
Proof. reflexivity. Qed.

Section SplitJoin.

Variable sep : ascii.

Lemma split_at_nonempty (s : string) : split_at sep s <> [].
Proof.
  destruct s as [| c s]; cbn; [discriminate |].
  destruct (Ascii.eqb c sep); [discriminate |].
  destruct (split_at sep s); discriminate.
Qed.

Lemma join_with_cons (piece : string) (pieces : list string) :
  pieces <> [] ->
  join_with sep (piece :: pieces)
  = String.append piece (String sep (join_with sep pieces)).
Proof.
  destruct pieces; [contradiction | reflexivity].
Qed.

Lemma join_with_head (c : ascii) (piece : string) (pieces : list string) :
  join_with sep (String c piece :: pieces) = String c (join_with sep (piece :: pieces)).
Proof.
  destruct pieces; reflexivity.
Qed.

(** Splitting and joining on the same character are inverse. *)
Lemma join_split (s : string) : join_with sep (split_at sep s) = s.
Proof.
  induction s as [| c s IH]; [reflexivity |].
  cbn [split_at]. destruct (Ascii.eqb_spec c sep) as [-> | Hne].
  - rewrite join_with_cons by apply split_at_nonempty. cbn. now rewrite IH.
  - destruct (split_at sep s) as [| piece pieces] eqn:Hs.
    + exfalso. exact (split_at_nonempty s Hs).
    + rewrite join_with_head, IH. reflexivity.
Qed.

Lemma split_at_length (s : string) :
  length (split_at sep s) = S (count_char sep s).
Proof.
  induction s as [| c s IH]; [reflexivity |].
  cbn [split_at count_char]. destruct (Ascii.eqb c sep); cbn [length].
  - rewrite IH. reflexivity.
  - destruct (split_at sep s) as [| piece pieces]; cbn [length] in *; lia.
Qed.

(** No piece holds the separator. *)
Lemma split_at_pieces (s : string) :
  Forall (fun piece => count_char sep piece = 0) (split_at sep s).
Proof.
  induction s as [| c s IH]; [repeat constructor |].
  cbn [split_at]. destruct (Ascii.eqb c sep) eqn:Hc.
  - constructor; [reflexivity | exact IH].
  - destruct (split_at sep s) as [| piece pieces].
    + repeat constructor. cbn. now rewrite Hc.
    + inversion IH; subst. constructor; [| assumption].
      cbn. rewrite Hc. assumption.
Qed.

End SplitJoin.

Lemma printed_lines_script (p : PyObj) (lines : list string) :
  printed_lines (printer_script p lines) = lines.
Proof.
  destruct lines as [| line lines]; [reflexivity |]. cbn. f_equal.
  induction lines as [| l lines IH]; [reflexivity |]. cbn. now rewrite IH.
Qed.

Lemma breaks_in_script (p : PyObj) (lines : list string) :
  length (filter (fun c => match c with PrinterBreak _ => true | _ => false end)
            (printer_script p lines))
  = length lines - 1.
Proof.
  destruct lines as [| line lines]; [reflexivity |]. cbn. rewrite Nat.sub_0_r.
  induction lines as [| l lines IH]; [reflexivity |]. cbn. now rewrite IH.
Qed.

Section TextPrinterProperties.

Context {T : TextCollaborators}.

Lemma text_external_eq (c : TextCall) (w : TextWorld) :
  text_external c w
  = (match fst (respond_text c (text_store w)) with
     | Returns x => TextReturned x
     | Raises e => TextRaised (TextForeign e)
     end,
     {| text_calls := text_calls w ++ [(c, text_store w)];
        text_store := snd (respond_text c (text_store w)) |}).
Proof.
  unfold text_external. destruct (respond_text c (text_store w)) as [[x | e] s'];
    reflexivity.
Qed.

(** The lines after the first, when the pretty printer takes every call. *)
Lemma print_later_lines (p : PyObj) (lines : list string) :
  (forall c s, is_printer_call c = true -> exists r, fst (respond_text c s) = Returns r) ->
  forall k w,
    fst (text_for_each (combine (seq (S k) (length lines)) lines) (print_line p) w)
    = TextReturned tt
    /\ map fst (text_calls
                  (snd (text_for_each (combine (seq (S k) (length lines)) lines)
                          (print_line p) w)))
       = map fst (text_calls w)
         ++ flat_map (fun line => [PrinterBreak p; PrinterText p line]) lines.
Proof.
  intros Hprinter. induction lines as [| line lines IH]; intros k w.
  - cbn. rewrite app_nil_r. split; reflexivity.
  - cbn [length seq combine text_for_each]. cbn -[text_for_each].
    rewrite text_external_eq.
    destruct (Hprinter (PrinterBreak p) (text_store w) eq_refl) as [r1 Hr1].
    rewrite Hr1. cbn -[text_for_each]. rewrite text_external_eq.
    match goal with
    | |- context [respond_text (PrinterText p line) ?s] =>
      destruct (Hprinter (PrinterText p line) s eq_refl) as [r2 Hr2]; rewrite Hr2
    end.
    cbn -[text_for_each].
    match goal with
    | |- context [text_for_each _ _ ?w1] => destruct (IH (S k) w1) as [Hout Hcalls]
    end.
    split; [exact Hout |]. rewrite Hcalls. cbn.
    rewrite !map_app, <- !app_assoc. reflexivity.
Qed.

(** The loop of lines 216-219 talks to the pretty printer only. *)
Lemma print_lines_printer_only (p : PyObj) (numbered : list (nat * string)) :
  forall w, exists printed,
    map fst (text_calls (snd (text_for_each numbered (print_line p) w)))
    = map fst (text_calls w) ++ printed
    /\ Forall (fun c => is_printer_call c = true) printed.
Proof.
  induction numbered as [| [i line] numbered IH]; intros w.
  - exists []. cbn. rewrite app_nil_r. split; [reflexivity | constructor].
  - cbn [text_for_each]. cbn -[text_for_each].
    destruct (negb (i =? 0)%nat); cbn -[text_for_each]; rewrite ?text_external_eq.
    + destruct (fst (respond_text (PrinterBreak p) (text_store w)));
        cbn -[text_for_each].
      * rewrite text_external_eq.
        match goal with
        | |- context [fst (respond_text (PrinterText p line) ?s)] =>
          destruct (fst (respond_text (PrinterText p line) s)); cbn -[text_for_each]
        end.
        -- match goal with
           | |- context [text_for_each _ _ ?w1] =>
             destruct (IH w1) as (printed & Hcalls & Hok)
           end.
           exists (PrinterBreak p :: PrinterText p line :: printed).
           rewrite Hcalls. cbn. rewrite !map_app, <- !app_assoc.
           split; [reflexivity | repeat constructor; exact Hok].
        -- exists [PrinterBreak p; PrinterText p line].
           rewrite !map_app, <- !app_assoc.
           split; [reflexivity | repeat constructor].
      * exists [PrinterBreak p]. rewrite map_app.
        split; [reflexivity | repeat constructor].
    + destruct (fst (respond_text (PrinterText p line) (text_store w)));
        cbn -[text_for_each].
      * match goal with
        | |- context [text_for_each _ _ ?w1] =>
          destruct (IH w1) as (printed & Hcalls & Hok)
        end.
        exists (PrinterText p line :: printed).
        rewrite Hcalls. cbn. rewrite !map_app, <- !app_assoc.
        split; [reflexivity | repeat constructor; exact Hok].
      * exists [PrinterText p line]. rewrite map_app.
        split; [reflexivity | repeat constructor].
Qed.

(** X21. When the expansion strategy opens and closes, [render_to_text]
    returns a string and the pretty printer takes every call, the printer is
    told the rendering line by line: [p.text] for the first line, then
    [p.break_] and [p.text] for each further line.  The lines joined by
    newlines are the rendering; there is one line more than there are
    newlines in it, and one break per newline. *)
Theorem X21_printer_receives_rendering (value p cycle : PyObj) (w : TextWorld)
  (cm x y : PyObj) (text : string) (s0 s1 s2 s3 : Store) :
  respond_text (UsingExpansionStrategy None) (text_store w) = (Returns cm, s0) ->
  respond_text (EnterStrategy cm) s0 = (Returns x, s1) ->
  respond_text (RenderToText value true) s1 = (Returns (PyStr text), s2) ->
  respond_text (ExitStrategy cm None) s2 = (Returns y, s3) ->
  (forall c s, is_printer_call c = true -> exists r, fst (respond_text c s) = Returns r) ->
  fst (_render_as_text_oneline value p cycle w) = TextReturned tt
  /\ exists printed,
       map fst (text_calls (snd (_render_as_text_oneline value p cycle w)))
       = map fst (text_calls w)
         ++ [UsingExpansionStrategy None; EnterStrategy cm;
             RenderToText value true; ExitStrategy cm None]
         ++ printed
       /\ printed = printer_script p (split_at newline text)
       /\ join_with newline (printed_lines printed) = text
       /\ length (printed_lines printed) = S (count_char newline text)
       /\ length (filter (fun c => match c with PrinterBreak _ => true | _ => false end)
                    printed)
          = count_char newline text.
Proof.
  intros Husing Henter Hrender Hexit Hprinter.
  assert (Hrun :
    fst (_render_as_text_oneline value p cycle w) = TextReturned tt
    /\ map fst (text_calls (snd (_render_as_text_oneline value p cycle w)))
       = map fst (text_calls w)
         ++ [UsingExpansionStrategy None; EnterStrategy cm;
             RenderToText value true; ExitStrategy cm None]
         ++ printer_script p (split_at newline text)).
  { unfold _render_as_text_oneline, with_assigning. cbn -[text_for_each split_at].
    unfold text_external. cbn -[text_for_each split_at].
    rewrite Husing. cbn -[text_for_each split_at].
    rewrite Henter. cbn -[text_for_each split_at].
    rewrite Hrender. cbn -[text_for_each split_at].
    rewrite Hexit. cbn -[text_for_each split_at].
    unfold enumerate.
    destruct (split_at _ text) as [| line lines] eqn:Hsplit.
    { exfalso. exact (split_at_nonempty _ text Hsplit). }
    cbn [length seq combine text_for_each printer_script].
    cbn -[text_for_each text_external]. rewrite text_external_eq.
    match goal with
    | |- context [respond_text (PrinterText p line) ?s] =>
      destruct (Hprinter (PrinterText p line) s eq_refl) as [r Hr]; rewrite Hr
    end.
    cbn -[text_for_each].
    match goal with
    | |- context [text_for_each _ _ ?w1] =>
      destruct (@print_later_lines p lines Hprinter 0 w1) as [Hout Hcalls]
    end.
    split; [exact Hout |]. rewrite Hcalls. cbn.
    rewrite !map_app, <- !app_assoc. reflexivity. }
  destruct Hrun as [Hout Hcalls].
  split; [exact Hout |].
  exists (printer_script p (split_at newline text)).
  split; [exact Hcalls |]. split; [reflexivity |].
  rewrite printed_lines_script, breaks_in_script, join_split, split_at_length.
  repeat split. lia.
Qed.

(** X22. Once the expansion strategy is entered, the text printer renders
    inside it and prints outside it: [render_to_text(value,
    ignore_exceptions=True)] is the one call made within the scope,
    [__exit__] follows at once, and every call after that goes to the pretty
    printer. *)
Theorem X22_prints_outside_strategy (value p cycle : PyObj) (w : TextWorld)
  (cm x : PyObj) (s0 s1 : Store) :
  respond_text (UsingExpansionStrategy None) (text_store w) = (Returns cm, s0) ->
  respond_text (EnterStrategy cm) s0 = (Returns x, s1) ->
  exists exc printed,
    map fst (text_calls (snd (_render_as_text_oneline value p cycle w)))
    = map fst (text_calls w)
      ++ [UsingExpansionStrategy None; EnterStrategy cm;
          RenderToText value true; ExitStrategy cm exc]
      ++ printed
    /\ Forall (fun c => is_printer_call c = true) printed.
Proof.
  intros Husing Henter.
  unfold _render_as_text_oneline, with_assigning. cbn -[text_for_each split_at].
  unfold text_external. cbn -[text_for_each split_at].
  rewrite Husing. cbn -[text_for_each split_at].
  rewrite Henter. cbn -[text_for_each split_at].
  destruct (respond_text (RenderToText value true) s1) as [[r | e] s2];
    cbn -[text_for_each split_at].
  - destruct (respond_text (ExitStrategy cm None) s2) as [[y | e'] s3];
      cbn -[text_for_each split_at].
    + destruct r as [| b | text | c | id]; cbn -[text_for_each split_at].
      3: { match goal with
           | |- context [text_for_each ?numbered _ ?w1] =>
             destruct (@print_lines_printer_only p numbered w1)
               as (printed & Hcalls & Hok)
           end.
           exists None, printed. rewrite Hcalls. cbn.
           rewrite !map_app, <- !app_assoc. split; [reflexivity | exact Hok]. }
      all: exists None, []; rewrite !map_app, <- !app_assoc;
           split; [reflexivity | constructor].
    + exists None, []. rewrite !map_app, <- !app_assoc.
      split; [reflexivity | constructor].
  - destruct (respond_text (ExitStrategy cm (Some e)) s2) as [[y | e'] s3];
      cbn -[text_for_each split_at]; [destruct (truthy y) |];
      cbn -[text_for_each split_at];
      exists (Some e), []; rewrite !map_app, <- !app_assoc;
      (split; [reflexivity | constructor]).
Qed.

(** X23. When [render_to_text] raises inside the strategy scope, nothing is
    printed.  If [__exit__] returns a false value the exception reaches the
    caller; if it returns a true value the exception is swallowed and the
    printer fails on the unbound local [rendering]. *)
Theorem X23_render_failure (value p cycle : PyObj) (w : TextWorld)
  (cm x r : PyObj) (e : ForeignExn) (s0 s1 s2 s3 : Store) :
  respond_text (UsingExpansionStrategy None) (text_store w) = (Returns cm, s0) ->
  respond_text (EnterStrategy cm) s0 = (Returns x, s1) ->
  respond_text (RenderToText value true) s1 = (Raises e, s2) ->
  respond_text (ExitStrategy cm (Some e)) s2 = (Returns r, s3) ->
  fst (_render_as_text_oneline value p cycle w)
  = (if truthy r then TextRaised (UnboundLocalError "rendering")
     else TextRaised (TextForeign e))
  /\ map fst (text_calls (snd (_render_as_text_oneline value p cycle w)))
     = map fst (text_calls w)
       ++ [UsingExpansionStrategy None; EnterStrategy cm;
           RenderToText value true; ExitStrategy cm (Some e)].
Proof.
  intros Husing Henter Hrender Hexit.
  unfold _render_as_text_oneline, with_assigning. cbn. unfold text_external. cbn.
  rewrite Husing. cbn. rewrite Henter. cbn. rewrite Hrender. cbn. rewrite Hexit. cbn.
  destruct (truthy r); cbn; rewrite !map_app, <- !app_assoc; split; reflexivity.
Qed.

End TextPrinterProperties.

Lemma X21_printer_receives_rendering_witness :
  @respond_text printer_three_lines (RenderToText (PyRef 0) true) sample_store
  = (Returns (PyStr (String.append "Array("
                       (String newline (String newline "  shape=(2,))")))),
     sample_store)
  /\ (forall c s, is_printer_call c = true ->
        exists r, fst (@respond_text printer_three_lines c s) = Returns r)
  /\ fst (@_render_as_text_oneline printer_three_lines (PyRef 0) (PyRef 1) PyNone
            sample_text_world)
     = TextReturned tt
  /\ exists printed,
       map fst (text_calls (snd (@_render_as_text_oneline printer_three_lines (PyRef 0)
                                   (PyRef 1) PyNone sample_text_world)))
       = [UsingExpansionStrategy None; EnterStrategy PyNone;
          RenderToText (PyRef 0) true; ExitStrategy PyNone None] ++ printed
       /\ printed
          = [PrinterText (PyRef 1) "Array("; PrinterBreak (PyRef 1);
             PrinterText (PyRef 1) ""; PrinterBreak (PyRef 1);
             PrinterText (PyRef 1) "  shape=(2,))"].
Proof.
  assert (Hprinter : forall c s, is_printer_call c = true ->
            exists r, fst (@respond_text printer_three_lines c s) = Returns r).
  { intros c s Hc. destruct c; try discriminate Hc; eexists; reflexivity. }
  split; [reflexivity |]. split; [exact Hprinter |].
  destruct (@X21_printer_receives_rendering printer_three_lines (PyRef 0) (PyRef 1) PyNone
              sample_text_world PyNone PyNone PyNone
              (String.append "Array(" (String newline (String newline "  shape=(2,))")))
              sample_store sample_store sample_store sample_store
              eq_refl eq_refl eq_refl eq_refl Hprinter)
    as (Hout & printed & Hcalls & Hprinted & _).
  split; [exact Hout |]. exists printed. split; [exact Hcalls |].
  rewrite Hprinted. reflexivity.
Defined.

Lemma X22_prints_outside_strategy_witness :
  @respond_text printer_three_lines (UsingExpansionStrategy None)
    (text_store sample_text_world) = (Returns PyNone, sample_store)
  /\ @respond_text printer_three_lines (EnterStrategy PyNone) sample_store
     = (Returns PyNone, sample_store)
  /\ exists exc printed,
       map fst (text_calls (snd (@_render_as_text_oneline printer_three_lines (PyRef 0)
                                   (PyRef 1) PyNone sample_text_world)))
       = map fst (text_calls sample_text_world)
         ++ [UsingExpansionStrategy None; EnterStrategy PyNone;
             RenderToText (PyRef 0) true; ExitStrategy PyNone exc]
         ++ printed
       /\ Forall (fun c => is_printer_call c = true) printed.
Proof.
  split; [reflexivity |]. split; [reflexivity |].
  apply (@X22_prints_outside_strategy printer_three_lines (PyRef 0) (PyRef 1) PyNone
           sample_text_world PyNone PyNone sample_store sample_store eq_refl eq_refl).
Defined.

Lemma X23_render_failure_witness :
  @respond_text printer_swallowing (RenderToText (PyRef 0) true) sample_store
  = (Raises (ForeignOther 6), sample_store)
  /\ @respond_text printer_swallowing (ExitStrategy PyNone (Some (ForeignOther 6)))
       sample_store
     = (Returns (PyBool true), sample_store)
  /\ fst (@_render_as_text_oneline printer_swallowing (PyRef 0) (PyRef 1) PyNone
            sample_text_world)
     = TextRaised (UnboundLocalError "rendering").
Proof.
  split; [reflexivity |]. split; [reflexivity |].
  destruct (@X23_render_failure printer_swallowing (PyRef 0) (PyRef 1) PyNone
              sample_text_world PyNone PyNone (PyBool true) (ForeignOther 6)
              sample_store sample_store sample_store sample_store
              eq_refl eq_refl eq_refl eq_refl) as [Hout _].
  exact Hout.
Defined.
